(** * AraiKorDai to-do list: the item codec, the JSON-file store and the CLI add path

    A shallow embedding of [src/main.py] ([AuthManager], [TodoManager], [App])
    together with the [models] module it imports ([TodoItem], [Priority],
    [Status]).  Stored records are Python dicts with string keys, modelled as
    [gmap string string]; the todos file is the list of records it holds;
    Python exceptions are the [Raise] outcomes of [result]. *)

From Stdlib Require Import Ascii.
From stdpp Require Import base strings gmap list.
From stdpp Require Import pretty.

(** ** Outcomes of a Python call *)

(** The exceptions the modelled code can raise: a dict subscript on a missing
    key, an enumeration constructor applied to a value that is no member
    (Python's [ValueError], the spec's DecodingError), and [input()] on an
    exhausted standard input. *)
Inductive exn : Type :=
  | KeyError (key : string)
  | DecodingError
  | EOFError.

Inductive result (A : Type) : Type :=
  | Ok (a : A)
  | Raise (e : exn).

Arguments Ok {A} a.
Arguments Raise {A} e.

#[global] Instance result_ret : MRet result := λ A, @Ok A.

#[global] Instance result_bind : MBind result := λ A B k r,
  match r with
  | Ok a => k a
  | Raise e => Raise e
  end.

(** [d[key]] on a Python dict. *)
Definition getitem (d : gmap string string) (key : string) : result string :=
  match d !! key with
  | Some v => Ok v
  | None => Raise (KeyError key)
  end.

(** ** The entity layer ([models]) *)

Module Models.

(** Modelled from the spec: the [Priority] enumeration of [models.py], which
    is not among the sources; a closed set of three members whose values are
    their literal tags. *)
Inductive Priority : Type := HIGH | MID | LOW.

(** Modelled from the spec: the [Status] enumeration of [models.py]. *)
Inductive Status : Type := PENDING | COMPLETED.

(** Modelled from the spec: [Priority.value], the literal string tag. *)
Definition Priority_value (p : Priority) : string :=
  match p with
  | HIGH => "HIGH"
  | MID => "MID"
  | LOW => "LOW"
  end.

(** Modelled from the spec: [Status.value]. *)
Definition Status_value (s : Status) : string :=
  match s with
  | PENDING => "PENDING"
  | COMPLETED => "COMPLETED"
  end.

(** Modelled from the spec: the enumeration constructor [Priority(value)],
    a strict parse that raises on every string that is not a tag. *)
Definition Priority_of (value : string) : result Priority :=
  if String.eqb value "HIGH" then Ok HIGH
  else if String.eqb value "MID" then Ok MID
  else if String.eqb value "LOW" then Ok LOW
  else Raise DecodingError.

(** Modelled from the spec: the enumeration constructor [Status(value)]. *)
Definition Status_of (value : string) : result Status :=
  if String.eqb value "PENDING" then Ok PENDING
  else if String.eqb value "COMPLETED" then Ok COMPLETED
  else Raise DecodingError.

(** Modelled from the spec: the [TodoItem] entity of [models.py]. *)
Record TodoItem : Type := mkTodoItem {
  title : string;
  details : string;
  priority : Priority;
  status : Status;
  owner : string;
  id : string;
  created_at : string;
  updated_at : string;
  due_date : option string
}.

(** Modelled from the spec: the constructor call
    [TodoItem(title=, details=, priority=, status=, owner=)] with the
    remaining arguments omitted.  The identifier drawn by the generator and
    the clock reading are passed in; both timestamps take the clock reading
    and the due date is absent. *)
Definition TodoItem_new (title details : string) (priority : Priority)
    (status : Status) (owner : string) (fresh_id now : string) : TodoItem :=
  {| title := title; details := details; priority := priority;
     status := status; owner := owner; id := fresh_id;
     created_at := now; updated_at := now; due_date := None |}.

(** Modelled from the spec: [TodoItem.to_dict] (Encode).  Eight keys are
    always written; [due_date] is written only when it is not [None]. *)
Definition to_dict (x : TodoItem) : gmap string string :=
  let data : gmap string string :=
    <["id" := id x]>
    (<["title" := title x]>
    (<["details" := details x]>
    (<["priority" := Priority_value (priority x)]>
    (<["status" := Status_value (status x)]>
    (<["owner" := owner x]>
    (<["created_at" := created_at x]>
    (<["updated_at" := updated_at x]> ∅))))))) in
  match due_date x with
  | Some d => <["due_date" := d]> data
  | None => data
  end.

(** Modelled from the spec: [TodoItem.from_dict] (Decode).  The eight
    mandatory keys are read by subscript, the two enumerated ones through
    their enumeration constructors; [due_date] is read with [dict.get]. *)
Definition from_dict (data : gmap string string) : result TodoItem :=
  i ← getitem data "id";
  t ← getitem data "title";
  d ← getitem data "details";
  pv ← getitem data "priority";
  p ← Priority_of pv;
  sv ← getitem data "status";
  s ← Status_of sv;
  o ← getitem data "owner";
  c ← getitem data "created_at";
  u ← getitem data "updated_at";
  Ok {| title := t; details := d; priority := p; status := s; owner := o;
        id := i; created_at := c; updated_at := u;
        due_date := data !! "due_date" |}.

End Models.

Import Models.

(** ** The store layer ([TodoManager] of [src/main.py]) *)

Module TodoManager.

(** [_ensure_file_exists], run by [__init__]: a missing todos file is
    created holding the empty list; an existing one is left as it is. *)
Definition _ensure_file_exists (disk : option (list (gmap string string)))
    : list (gmap string string) :=
  match disk with
  | None => []
  | Some todos => todos
  end.

(** [_load_todos] and [_save_todos] read and write the whole document. *)
Definition _load_todos (file : list (gmap string string))
    : list (gmap string string) := file.

Definition _save_todos (todos file : list (gmap string string))
    : list (gmap string string) := todos.

(** [add_todo]: load, append the encoded item, save, return [True]. *)
Definition add_todo (todo : TodoItem) (file : list (gmap string string))
    : bool * list (gmap string string) :=
  let todos := _load_todos file in
  let todos := todos ++ [to_dict todo] in
  (true, _save_todos todos file).

(** The comprehension of [get_user_todos],
    [[TodoItem.from_dict(todo) for todo in todos if todo["owner"] == username]]:
    for each record in turn the condition is evaluated first, and only a
    record that passes it is decoded. *)
Fixpoint get_user_todos_loop (username : string)
    (todos : list (gmap string string)) : result (list TodoItem) :=
  match todos with
  | [] => Ok []
  | todo :: rest =>
      o ← getitem todo "owner";
      if String.eqb o username then
        x ← from_dict todo;
        xs ← get_user_todos_loop username rest;
        Ok (x :: xs)
      else get_user_todos_loop username rest
  end.

Definition get_user_todos (username : string)
    (file : list (gmap string string)) : result (list TodoItem) :=
  get_user_todos_loop username (_load_todos file).

(** Modelled from the spec: [TodoManager.get_todo_by_id], called by the
    tests but absent from [src/main.py].  The first record whose [id]
    matches is located (a record without the key matches no identifier); it
    is decoded and returned only if it belongs to [username], otherwise the
    answer is [None] as when nothing matches. *)
Definition get_todo_by_id (todo_id username : string)
    (file : list (gmap string string)) : result (option TodoItem) :=
  match list_find (λ r : gmap string string, r !! "id" = Some todo_id)
                  (_load_todos file) with
  | None => Ok None
  | Some (_, existing) =>
      if bool_decide (existing !! "owner" = Some username) then
        x ← from_dict existing; Ok (Some x)
      else Ok None
  end.

(** Modelled from the spec: [TodoManager.update_todo], called by the tests
    but absent from [src/main.py].  The existing record is located by
    [todo.id] (the first one carrying it); with no such record, or with one
    of another owner, [False] is returned and nothing is written; otherwise
    the record is replaced in place by the encoded item and the document is
    written back. *)
Definition update_todo (todo : TodoItem) (file : list (gmap string string))
    : bool * list (gmap string string) :=
  let todos := _load_todos file in
  match list_find (λ r : gmap string string, r !! "id" = Some (id todo))
                  todos with
  | None => (false, file)
  | Some (i, existing) =>
      if bool_decide (existing !! "owner" = Some (owner todo)) then
        (true, _save_todos (<[i := to_dict todo]> todos) file)
      else (false, file)
  end.

(** A sequence of [add_todo] calls, each on the document the previous one
    left. *)
Definition add_todos (xs : list TodoItem) (file : list (gmap string string))
    : list (gmap string string) :=
  foldl (λ f x, snd (add_todo x f)) file xs.

End TodoManager.

Import TodoManager.

(** ** The CLI layer ([App] of [src/main.py]) *)

Module App.

(** What a handler can observe and change: the lines still to be read from
    standard input, the text written so far, and the todos file. *)
Record world : Type := mkWorld {
  stdin : list string;
  stdout : list string;
  todos_file : list (gmap string string)
}.

(** A handler step: an outcome together with the world it leaves. *)
Definition io (A : Type) : Type := world → result A * world.

Definition io_ret {A : Type} (a : A) : io A := λ w, (Ok a, w).

Definition io_raise {A : Type} (e : exn) : io A := λ w, (Raise e, w).

Definition io_bind {A B : Type} (m : io A) (k : A → io B) : io B := λ w,
  match m w with
  | (Ok a, w') => k a w'
  | (Raise e, w') => (Raise e, w')
  end.

Notation "'let*' x ':=' m 'in' k" := (io_bind m (λ x, k))
  (at level 10, x name, m at level 100, k at level 200).

(** [input(prompt)]: the prompt is written, then one line is consumed;
    with no line left the call raises. *)
Definition input (prompt : string) : io string := λ w,
  let w' := {| stdin := tail (stdin w); stdout := stdout w ++ [prompt];
               todos_file := todos_file w |} in
  match stdin w with
  | [] => (Raise EOFError, w')
  | line :: _ => (Ok line, w')
  end.

Definition print (line : string) : io unit := λ w,
  (Ok tt, {| stdin := stdin w; stdout := stdout w ++ [line];
             todos_file := todos_file w |}).

(** [self.todo_manager.add_todo(todo)] run on the world's todos file. *)
Definition todo_manager_add_todo (todo : TodoItem) : io bool := λ w,
  let '(ok, file) := add_todo todo (todos_file w) in
  (Ok ok, {| stdin := stdin w; stdout := stdout w; todos_file := file |}).

(** [str.isspace] on the code points below 256: the characters [str.strip]
    removes when called without argument. *)
Definition is_space (c : ascii) : bool :=
  let n := nat_of_ascii c in
  (9 <=? n) && (n <=? 13) || (28 <=? n) && (n <=? 32)
  || (n =? 133) || (n =? 160).

Fixpoint lstrip (s : string) : string :=
  match s with
  | EmptyString => EmptyString
  | String c rest => if is_space c then lstrip rest else s
  end.

Definition rstrip (s : string) : string :=
  String.rev (lstrip (String.rev s)).

Definition strip (s : string) : string := rstrip (lstrip s).

Section Handlers.

(** [str.upper], a built-in whose case tables lie outside the
    repository. *)
Variable upper : string → string.

(** [App.handle_add_todo].  [current_user] is [self.current_user], a user
    name whenever [run] reaches this handler; [fresh_id] and [now] are the
    identifier and the clock reading the [TodoItem] constructor draws. *)
Definition handle_add_todo (current_user fresh_id now : string) : io unit :=
  let* title := input "Enter todo title: " in
  let title := strip title in
  let* details := input "Enter todo details: " in
  let details := strip details in
  let* priority_str := input "Enter priority (HIGH/MID/LOW): " in
  let priority_str := upper (strip priority_str) in
  let* priority :=
    match Priority_of priority_str with
    | Ok p => io_ret p
    | Raise DecodingError =>
        let* _ := print "Invalid priority. Defaulting to MID." in
        io_ret MID
    | Raise e => io_raise e
    end in
  let todo := TodoItem_new title details priority PENDING current_user
                           fresh_id now in
  let* added := todo_manager_add_todo todo in
  if added : bool then print "Todo added successfully!" else io_ret tt.

(** The priority [handle_add_todo] settles on for an entered line. *)
Definition entered_priority (line : string) : Priority :=
  match Priority_of (upper (strip line)) with
  | Ok p => p
  | Raise _ => MID
  end.

End Handlers.

(** The prompts [handle_add_todo] passes to [input], in order. *)
Definition add_prompts : list string :=
  ["Enter todo title: "; "Enter todo details: ";
   "Enter priority (HIGH/MID/LOW): "].

(** Upper-casing of the ASCII letters, the part of [str.upper] the priority
    tags need. *)
Definition ascii_upper (c : ascii) : ascii :=
  let n := nat_of_ascii c in
  if (97 <=? n) && (n <=? 122) then ascii_of_nat (n - 32) else c.

Fixpoint upper_ascii (s : string) : string :=
  match s with
  | EmptyString => EmptyString
  | String c rest => String (ascii_upper c) (upper_ascii rest)
  end.

End App.

Import App.

(** ** Well-formed records and the enumerations' tags *)

Definition mandatory_keys : list string :=
  ["id"; "title"; "details"; "priority"; "status"; "owner"; "created_at";
   "updated_at"].

Definition has_mandatory_keys (data : gmap string string) : bool :=
  forallb (λ k, bool_decide (is_Some (data !! k))) mandatory_keys.

Definition priority_tags : list string := ["HIGH"; "MID"; "LOW"].
Definition status_tags : list string := ["PENDING"; "COMPLETED"].

(** A record whose [priority] or [status] value lies outside its
    enumeration. *)
Definition bad_enum (data : gmap string string) : Prop :=
  (∃ pv, data !! "priority" = Some pv ∧ pv ∉ priority_tags) ∨
  (∃ sv, data !! "status" = Some sv ∧ sv ∉ status_tags).

Definition sample_todo : TodoItem :=
  {| title := "Test Task"; details := "This is a test task"; priority := HIGH;
     status := PENDING; owner := "testuser";
     id := "7c2f1a3e-0000-4000-8000-000000000001";
     created_at := "2025-01-20T10:00:00"; updated_at := "2025-01-20T10:00:00";
     due_date := None |}.

Definition alice_todo : TodoItem :=
  {| title := "Buy milk"; details := ""; priority := MID; status := PENDING;
     owner := "alice"; id := "A"; created_at := "2025-01-20T10:00:00";
     updated_at := "2025-01-20T10:00:00"; due_date := Some "2025-12-31" |}.

Definition bob_todo : TodoItem :=
  {| title := "Walk dog"; details := "twice"; priority := LOW;
     status := COMPLETED; owner := "bob"; id := "B";
     created_at := "2025-01-21T08:00:00"; updated_at := "2025-01-22T09:30:00";
     due_date := None |}.

(** Bob's record with a priority tag that is no member of the enumeration. *)
Definition bob_bad_record : gmap string string :=
  <["priority" := "URGENT"]> (to_dict bob_todo).

(** The record located by an identifier: the one at position [i] carries the
    identifier and no earlier record does. *)
Definition located (todo_id : string) (file : list (gmap string string))
    (i : nat) (existing : gmap string string) : Prop :=
  file !! i = Some existing ∧ existing !! "id" = Some todo_id ∧
  ∀ j r, j < i → file !! j = Some r → r !! "id" ≠ Some todo_id.

(** A second item carrying the identifier of [alice_todo]. *)
Definition alice_todo_again : TodoItem :=
  {| title := "Buy bread"; details := "rye"; priority := HIGH;
     status := PENDING; owner := "alice"; id := "A";
     created_at := "2025-02-01T12:00:00"; updated_at := "2025-02-01T12:00:00";
     due_date := None |}.


(** Alice's item with its status and [updated_at] edited. *)
Definition alice_todo_done : TodoItem :=
  {| title := title alice_todo; details := details alice_todo;
     priority := priority alice_todo; status := COMPLETED;
     owner := owner alice_todo; id := id alice_todo;
     created_at := created_at alice_todo; updated_at := "2025-03-01T09:00:00";
     due_date := due_date alice_todo |}.

(** A document holding Bob's undecodable record followed by Alice's
    record. *)
Definition mixed_file : list (gmap string string) :=
  [bob_bad_record; to_dict alice_todo].

(** ** The account store ([AuthManager] of [src/main.py]) *)

Module AuthManager.

(** [_ensure_file_exists], run by [__init__]: a missing users file is created
    holding the empty list. *)
Definition _ensure_file_exists (disk : option (list (gmap string string)))
    : list (gmap string string) :=
  match disk with
  | None => []
  | Some users => users
  end.

Definition _load_users (file : list (gmap string string))
    : list (gmap string string) := file.

Definition _save_users (users file : list (gmap string string))
    : list (gmap string string) := users.

(** The dict literal [{"username": username, "password": password}]. *)
Definition user_record (username password : string) : gmap string string :=
  <["username" := username]> (<["password" := password]> ∅).

(** [any(user["username"] == username for user in users)]: the records are
    visited in order, the first match ends the scan, a record without the key
    raises. *)
Fixpoint any_username (username : string) (users : list (gmap string string))
    : result bool :=
  match users with
  | [] => Ok false
  | user :: rest =>
      n ← getitem user "username";
      if String.eqb n username then Ok true else any_username username rest
  end.

(** [register]: [False] when the name is taken, otherwise the record is
    appended, the file written and [True] returned. *)
Definition register (username password : string)
    (file : list (gmap string string))
    : result bool * list (gmap string string) :=
  let users := _load_users file in
  match any_username username users with
  | Raise e => (Raise e, file)
  | Ok true => (Ok false, file)
  | Ok false =>
      let users := users ++ [user_record username password] in
      (Ok true, _save_users users file)
  end.

(** [any(user["username"] == username and user["password"] == password
         for user in users)]: [and] reads the password only of a record whose
    name matched. *)
Fixpoint any_credentials (username password : string)
    (users : list (gmap string string)) : result bool :=
  match users with
  | [] => Ok false
  | user :: rest =>
      n ← getitem user "username";
      if String.eqb n username then
        p ← getitem user "password";
        if String.eqb p password then Ok true
        else any_credentials username password rest
      else any_credentials username password rest
  end.

Definition login (username password : string)
    (file : list (gmap string string)) : result bool :=
  any_credentials username password (_load_users file).

(** A sequence of [register] calls, each on the file the previous one left. *)
Definition registers (accounts : list (string * string))
    (file : list (gmap string string)) : list (gmap string string) :=
  foldl (λ f a, snd (register a.1 a.2 f)) file accounts.

End AuthManager.

(** The names under which the records of a users file are registered. *)
Definition usernames (users : list (gmap string string)) : list string :=
  omap (λ user : gmap string string, user !! "username") users.

(** A users file whose records all carry both keys. *)
Definition credentials_present (users : list (gmap string string)) : Prop :=
  Forall (λ user : gmap string string,
            is_Some (user !! "username") ∧ is_Some (user !! "password")) users.

(** The password given by the first registration under a name, in a sequence
    of registrations. *)
Fixpoint first_registration (u : string) (accounts : list (string * string))
    : option string :=
  match accounts with
  | [] => None
  | (n, p) :: rest =>
      if String.eqb n u then Some p else first_registration u rest
  end.

(** ** The rest of the CLI layer ([App] of [src/main.py]) *)

(** The line feed that opens several of the printed strings. *)
Definition nl : string := String "010" EmptyString.

(** [self.todo_manager.get_user_todos(username)] run on the world's todos
    file. *)
Definition todo_manager_get_user_todos (username : string)
    : io (list TodoItem) := λ w,
  (get_user_todos username (todos_file w), w).

(** The [for] loop of [handle_view_todos] over [enumerate(todos, 1)]: five
    lines per item, [i] being the number of the item at the head. *)
Fixpoint view_entries (i : nat) (todos : list TodoItem) : io unit :=
  match todos with
  | [] => io_ret tt
  | todo :: rest =>
      let* _ := print (nl +:+ pretty i +:+ ". " +:+ title todo) in
      let* _ := print ("   Status: " +:+ Status_value (status todo)) in
      let* _ := print ("   Priority: " +:+ Priority_value (priority todo)) in
      let* _ := print ("   Details: " +:+ details todo) in
      let* _ := print ("   Created: " +:+ created_at todo) in
      view_entries (S i) rest
  end.

(** [App.handle_view_todos], for the logged-in user [current_user]. *)
Definition handle_view_todos (current_user : string) : io unit :=
  let* todos := todo_manager_get_user_todos current_user in
  match todos with
  | [] => print "You have no todos yet."
  | _ :: _ =>
      let* _ := print (nl +:+ "=== YOUR TODOS ===") in
      view_entries 1 todos
  end.

(** The five lines [handle_view_todos] prints for the item numbered [i]. *)
Definition entry_lines (i : nat) (todo : TodoItem) : list string :=
  [nl +:+ pretty i +:+ ". " +:+ title todo;
   "   Status: " +:+ Status_value (status todo);
   "   Priority: " +:+ Priority_value (priority todo);
   "   Details: " +:+ details todo;
   "   Created: " +:+ created_at todo].

(** The lines of a whole listing, numbered from [i]. *)
Fixpoint listing_lines (i : nat) (todos : list TodoItem) : list string :=
  match todos with
  | [] => []
  | todo :: rest => entry_lines i todo ++ listing_lines (S i) rest
  end.

Module Menu.

(** The state of a running [App]: the console and todos file, the users
    file, [self.current_user], and the number of items constructed so far. *)
Record session : Type := mkSession {
  console : world;
  users_file : list (gmap string string);
  current_user : option string;
  drawn : nat
}.

(** How a call ends: normally, with an exception, or with the [SystemExit]
    of [exit()]. *)
Inductive outcome (A : Type) : Type :=
  | Done (a : A)
  | Raised (e : exn)
  | SystemExit.

Arguments Done {A} a.
Arguments Raised {A} e.
Arguments SystemExit {A}.

Definition menu (A : Type) : Type := session → outcome A * session.

Definition menu_ret {A : Type} (a : A) : menu A := λ s, (Done a, s).

Definition menu_bind {A B : Type} (m : menu A) (k : A → menu B) : menu B :=
  λ s,
  match m s with
  | (Done a, s') => k a s'
  | (Raised e, s') => (Raised e, s')
  | (SystemExit, s') => (SystemExit, s')
  end.

Notation "'let!' x ':=' m 'in' k" := (menu_bind m (λ x, k))
  (at level 10, x name, m at level 100, k at level 200).

Definition of_result {A : Type} (r : result A) : outcome A :=
  match r with
  | Ok a => Done a
  | Raise e => Raised e
  end.

(** A console step run inside the session. *)
Definition on_console {A : Type} (m : io A) : menu A := λ s,
  let '(r, w) := m (console s) in
  (of_result r,
   {| console := w; users_file := users_file s;
      current_user := current_user s; drawn := drawn s |}).

(** [exit()]. *)
Definition exit {A : Type} : menu A := λ s, (SystemExit, s).

(** [self.auth_manager.login] and [self.auth_manager.register] run on the
    session's users file. *)
Definition auth_manager_login (username password : string) : menu bool :=
  λ s, (of_result (AuthManager.login username password (users_file s)), s).

Definition auth_manager_register (username password : string) : menu bool :=
  λ s,
  let '(r, file) := AuthManager.register username password (users_file s) in
  (of_result r,
   {| console := console s; users_file := file;
      current_user := current_user s; drawn := drawn s |}).

(** The assignment [self.current_user = value]. *)
Definition set_current_user (value : option string) : menu unit := λ s,
  (Done tt,
   {| console := console s; users_file := users_file s;
      current_user := value; drawn := drawn s |}).

(** Truth value of [self.current_user]: [None] and the empty string count as
    false; otherwise the name is handed back. *)
Definition logged_in (value : option string) : option string :=
  match value with
  | Some (String c rest) => Some (String c rest)
  | _ => None
  end.

(** [not s] on a string. *)
Definition str_not (s : string) : bool :=
  match s with
  | EmptyString => true
  | String _ _ => false
  end.

(** [App.handle_login]. *)
Definition handle_login : menu unit :=
  let! username := on_console (input "Enter username: ") in
  let username := strip username in
  let! password := on_console (input "Enter password: ") in
  let password := strip password in
  let! ok := auth_manager_login username password in
  if ok : bool then
    let! _ := set_current_user (Some username) in
    on_console (print (nl +:+ "Welcome, " +:+ username +:+ "!"))
  else on_console (print "Invalid username or password.").

(** [App.handle_signup]. *)
Definition handle_signup : menu unit :=
  let! username := on_console (input "Enter a new username: ") in
  let username := strip username in
  let! password := on_console (input "Enter a password: ") in
  let password := strip password in
  if str_not username || str_not password then
    on_console (print "Username and password cannot be empty.")
  else
    let! ok := auth_manager_register username password in
    if ok : bool then
      on_console
        (print ("Account created successfully for " +:+ username +:+ "!"))
    else on_console (print "Username already exists.").

(** [App.show_main_menu]. *)
Definition show_main_menu : menu unit :=
  let! _ := on_console (print (nl +:+ "=== MAIN MENU ===")) in
  let! _ := on_console (print "[1] Add Todo") in
  let! _ := on_console (print "[2] View Todos") in
  let! _ := on_console (print "[3] Logout") in
  on_console (print "[4] Exit").

(** One turn of the [while] loop of [show_pre_login_menu]. *)
Definition pre_login_turn : menu unit :=
  let! _ := on_console (print (nl +:+ "=== TO-DO LIST APPLICATION ===")) in
  let! _ := on_console (print "[1] Login") in
  let! _ := on_console (print "[2] Sign Up") in
  let! _ := on_console (print "[3] Exit") in
  let! choice := on_console (input (nl +:+ "Choose an option: ")) in
  let choice := strip choice in
  if String.eqb choice "1" then handle_login
  else if String.eqb choice "2" then handle_signup
  else if String.eqb choice "3" then
    let! _ := on_console (print "Goodbye!") in
    exit
  else on_console (print "Invalid choice. Please try again.").

(** [App.show_pre_login_menu]: [while not self.current_user], one turn.  The
    loop is bounded by [fuel]; [None] stands for a loop that has not ended
    within it. *)
Fixpoint show_pre_login_menu (fuel : nat) (s : session)
    : option (outcome unit * session) :=
  match logged_in (current_user s) with
  | Some _ => Some (Done tt, s)
  | None =>
      match fuel with
      | 0 => None
      | S fuel =>
          match pre_login_turn s with
          | (Done _, s') => show_pre_login_menu fuel s'
          | (Raised e, s') => Some (Raised e, s')
          | (SystemExit, s') => Some (SystemExit, s')
          end
      end
  end.

Section Run.

(** [str.upper]; the identifier and the clock reading the [n]-th constructed
    item draws. *)
Variable upper : string → string.
Variable uuid4 : nat → string.
Variable now : nat → string.

(** [self.handle_add_todo()] under the logged-in user [u]; a call that gets
    as far as the constructor draws one identifier and one clock reading. *)
Definition add_todo_turn (u : string) : menu unit := λ s,
  match on_console
          (handle_add_todo upper u (uuid4 (drawn s)) (now (drawn s))) s with
  | (Done _, s') =>
      (Done tt,
       {| console := console s'; users_file := users_file s';
          current_user := current_user s'; drawn := S (drawn s') |})
  | (Raised e, s') => (Raised e, s')
  | (SystemExit, s') => (SystemExit, s')
  end.

(** One turn of the [while self.current_user] loop of [run], [u] being the
    name found in [self.current_user] by the loop test.  Choice 3 logs out
    and runs the pre-login menu again, on the fuel that is left. *)
Definition main_turn (fuel : nat) (u : string) (s : session)
    : option (outcome unit * session) :=
  match (let! _ := show_main_menu in
         on_console (input (nl +:+ "Choose an option: "))) s with
  | (Done line, s1) =>
      let choice := strip line in
      if String.eqb choice "1" then Some (add_todo_turn u s1)
      else if String.eqb choice "2" then
        Some (on_console (handle_view_todos u) s1)
      else if String.eqb choice "3" then
        match (let! _ := set_current_user None in
               on_console (print "Logged out successfully.")) s1 with
        | (Done _, s2) => show_pre_login_menu fuel s2
        | (Raised e, s2) => Some (Raised e, s2)
        | (SystemExit, s2) => Some (SystemExit, s2)
        end
      else if String.eqb choice "4" then
        Some ((let! _ := on_console (print "Goodbye!") in exit) s1)
      else Some (on_console (print "Invalid choice. Please try again.") s1)
  | (Raised e, s1) => Some (Raised e, s1)
  | (SystemExit, s1) => Some (SystemExit, s1)
  end.

(** The [while self.current_user] loop of [run]. *)
Fixpoint main_loop (fuel : nat) (s : session)
    : option (outcome unit * session) :=
  match logged_in (current_user s) with
  | None => Some (Done tt, s)
  | Some u =>
      match fuel with
      | 0 => None
      | S fuel =>
          match main_turn fuel u s with
          | Some (Done _, s') => main_loop fuel s'
          | other => other
          end
      end
  end.

(** [App.run]. *)
Definition run (fuel : nat) (s : session) : option (outcome unit * session) :=
  match show_pre_login_menu fuel s with
  | Some (Done _, s1) => main_loop fuel s1
  | other => other
  end.

End Run.

(** [App.__init__]: both managers make sure their files exist and nobody is
    logged in. *)
Definition App_init (users_disk todos_disk : option (list (gmap string string)))
    (keyboard : list string) : session :=
  {| console := {| stdin := keyboard; stdout := [];
                   todos_file := TodoManager._ensure_file_exists todos_disk |};
     users_file := AuthManager._ensure_file_exists users_disk;
     current_user := None; drawn := 0 |}.

End Menu.

(** ** What a session keeps *)

(** A record as [handle_signup] registers it: name and password non-empty. *)
Definition signup_record (r : gmap string string) : Prop :=
  ∃ u p, r = AuthManager.user_record u p ∧ u ≠ "" ∧ p ≠ "".

(** A record as [handle_add_todo] writes it for a user whose credentials the
    users file accepts. *)
Definition todo_of_user (users : list (gmap string string))
    (r : gmap string string) : Prop :=
  ∃ x p, r = to_dict x ∧ owner x ≠ "" ∧ status x = PENDING ∧
         due_date x = None ∧ AuthManager.login (owner x) p users = Ok true.

(** The name in [self.current_user], when it counts as logged in, is one the
    users file accepts with some password. *)
Definition authenticated (s : Menu.session) : Prop :=
  ∀ u, Menu.logged_in (Menu.current_user s) = Some u →
       ∃ p, AuthManager.login u p (Menu.users_file s) = Ok true.

(** How a session may move from [s] to [s']: both files only grow, the users
    file by sign-up records and the todos file by todos of accepted users;
    output is only appended and input only consumed; an accepted current user
    is followed by an accepted one. *)
Definition session_step (s s' : Menu.session) : Prop :=
  (∃ new_users,
     Menu.users_file s' = Menu.users_file s ++ new_users ∧
     Forall signup_record new_users) ∧
  (∃ added,
     todos_file (Menu.console s') = todos_file (Menu.console s) ++ added ∧
     (authenticated s → Forall (todo_of_user (Menu.users_file s')) added)) ∧
  stdout (Menu.console s) `prefix_of` stdout (Menu.console s') ∧
  stdin (Menu.console s') `suffix_of` stdin (Menu.console s) ∧
  (authenticated s → authenticated s').

(** Goals about grown output and consumed input. *)
Ltac grown :=
  first [ reflexivity
        | repeat apply prefix_app_r; reflexivity
        | repeat apply suffix_cons_r; reflexivity
        | intros _; simpl; lia ].

(** Membership of a literal in a literal list of tags, and its negation. *)
Ltac tag_in := repeat first [apply list_elem_of_here | apply list_elem_of_further].
Ltac tag_out :=
  rewrite ?not_elem_of_cons; split_and?;
  first [apply not_elem_of_nil | congruence | discriminate].

(** ** Sample runs *)

Example round_trip_sample : from_dict (to_dict sample_todo) = Ok sample_todo.
Proof. vm_compute. reflexivity. Qed.

Example get_user_todos_two_owners :
  get_user_todos "alice" (add_todos [alice_todo; bob_todo; sample_todo] [])
  = Ok [alice_todo].
Proof. vm_compute. reflexivity. Qed.

Example update_other_owner :
  update_todo bob_todo [to_dict alice_todo] = (false, [to_dict alice_todo]).
Proof. vm_compute. reflexivity. Qed.

Example update_then_fetch :
  get_todo_by_id "A" "alice"
    (snd (update_todo alice_todo_done [to_dict bob_todo; to_dict alice_todo]))
  = Ok (Some alice_todo_done).
Proof. vm_compute. reflexivity. Qed.

Example get_user_todos_bad_other :
  get_user_todos "alice" [bob_bad_record; to_dict alice_todo] = Ok [alice_todo].
Proof. vm_compute. reflexivity. Qed.

Example get_user_todos_bad_own :
  get_user_todos "bob" [to_dict alice_todo; bob_bad_record] = Raise DecodingError.
Proof. vm_compute. reflexivity. Qed.

Example strip_both_ends : strip "  Buy milk  " = "Buy milk".
Proof. vm_compute. reflexivity. Qed.

Example strip_keeps_inner_space : strip " a  b " = "a  b".
Proof. vm_compute. reflexivity. Qed.

Example is_space_tab_nbsp :
  is_space "009"%char = true ∧ is_space "160"%char = true ∧
  is_space "_"%char = false.
Proof. vm_compute. done. Qed.

Example handle_add_todo_sample :
  handle_add_todo upper_ascii "alice" "A" "2025-01-20T10:00:00"
    {| stdin := ["Buy milk"; ""; " mid "]; stdout := []; todos_file := [] |}
  = (Ok tt,
     {| stdin := [];
        stdout := ["Enter todo title: "; "Enter todo details: ";
                   "Enter priority (HIGH/MID/LOW): ";
                   "Todo added successfully!"];
        todos_file :=
          [to_dict {| title := "Buy milk"; details := ""; priority := MID;
                      status := PENDING; owner := "alice"; id := "A";
                      created_at := "2025-01-20T10:00:00";
                      updated_at := "2025-01-20T10:00:00";
                      due_date := None |}] |}).
Proof. vm_compute. reflexivity. Qed.

(** ** The codec *)

Lemma Priority_of_value (p : Priority) : Priority_of (Priority_value p) = Ok p.
Proof. by destruct p. Qed.

Lemma Status_of_value (s : Status) : Status_of (Status_value s) = Ok s.
Proof. by destruct s. Qed.

(** The strict parse either lands on the member whose tag was given, or
    rejects a string that is none of the tags. *)
Lemma Priority_of_cases (pv : string) :
  (∃ p, Priority_of pv = Ok p ∧ pv = Priority_value p ∧ pv ∈ priority_tags) ∨
  (Priority_of pv = Raise DecodingError ∧ pv ∉ priority_tags).
Proof.
  unfold Priority_of, priority_tags.
  destruct (String.eqb_spec pv "HIGH") as [->|?];
    [left; exists HIGH; split_and!; [done..|tag_in]|].
  destruct (String.eqb_spec pv "MID") as [->|?];
    [left; exists MID; split_and!; [done..|tag_in]|].
  destruct (String.eqb_spec pv "LOW") as [->|?];
    [left; exists LOW; split_and!; [done..|tag_in]|].
  right. split; [done|tag_out].
Qed.

Lemma Status_of_cases (sv : string) :
  (∃ s, Status_of sv = Ok s ∧ sv = Status_value s ∧ sv ∈ status_tags) ∨
  (Status_of sv = Raise DecodingError ∧ sv ∉ status_tags).
Proof.
  unfold Status_of, status_tags.
  destruct (String.eqb_spec sv "PENDING") as [->|?];
    [left; exists PENDING; split_and!; [done..|tag_in]|].
  destruct (String.eqb_spec sv "COMPLETED") as [->|?];
    [left; exists COMPLETED; split_and!; [done..|tag_in]|].
  right. split; [done|tag_out].
Qed.

Lemma Priority_value_tag (p : Priority) : Priority_value p ∈ priority_tags.
Proof. destruct p; unfold priority_tags; simpl; tag_in. Qed.

Lemma Status_value_tag (s : Status) : Status_value s ∈ status_tags.
Proof. destruct s; unfold status_tags; simpl; tag_in. Qed.

Lemma to_dict_owner (x : TodoItem) : to_dict x !! "owner" = Some (owner x).
Proof. unfold to_dict. destruct (due_date x); by simplify_map_eq. Qed.

Lemma to_dict_id (x : TodoItem) : to_dict x !! "id" = Some (id x).
Proof. unfold to_dict. destruct (due_date x); by simplify_map_eq. Qed.

Lemma to_dict_due_date (x : TodoItem) : to_dict x !! "due_date" = due_date x.
Proof. unfold to_dict. destruct (due_date x); by simplify_map_eq. Qed.

Lemma from_dict_to_dict (x : TodoItem) : from_dict (to_dict x) = Ok x.
Proof.
  destruct x as [t d p s o i c u [dd|]]; unfold from_dict, to_dict, getitem; simpl.
  all: simplify_map_eq.
  all: rewrite Priority_of_value, Status_of_value; simpl; reflexivity.
Qed.

(** A record with the eight mandatory keys has a value under each of them. *)
Lemma has_mandatory_keys_lookup (data : gmap string string) :
  has_mandatory_keys data = true →
  ∀ k, k ∈ mandatory_keys → ∃ v, data !! k = Some v.
Proof.
  unfold has_mandatory_keys. rewrite forallb_forall. intros H k Hk.
  apply list_elem_of_In, H, bool_decide_eq_true in Hk. exact Hk.
Qed.

Lemma has_mandatory_keys_to_dict (x : TodoItem) :
  has_mandatory_keys (to_dict x) = true.
Proof.
  unfold has_mandatory_keys, mandatory_keys, to_dict. simpl.
  destruct (due_date x); simplify_map_eq; repeat (rewrite bool_decide_eq_true_2 by eauto); done.
Qed.

(** What [from_dict] does on a record that has the mandatory keys: the only
    way to fail is through one of the two enumeration constructors. *)
Lemma from_dict_well_formed (data : gmap string string) :
  has_mandatory_keys data = true →
  ∃ i t d pv sv o c u,
    data !! "id" = Some i ∧ data !! "title" = Some t ∧
    data !! "details" = Some d ∧ data !! "priority" = Some pv ∧
    data !! "status" = Some sv ∧ data !! "owner" = Some o ∧
    data !! "created_at" = Some c ∧ data !! "updated_at" = Some u ∧
    from_dict data =
      (p ← Priority_of pv; s ← Status_of sv;
       Ok {| title := t; details := d; priority := p; status := s;
             owner := o; id := i; created_at := c; updated_at := u;
             due_date := data !! "due_date" |}).
Proof.
  intros Hwf. pose proof (has_mandatory_keys_lookup data Hwf) as Hk.
  destruct (Hk "id") as [i Hi]; [tag_in|].
  destruct (Hk "title") as [t Ht]; [tag_in|].
  destruct (Hk "details") as [d Hd]; [tag_in|].
  destruct (Hk "priority") as [pv Hp]; [tag_in|].
  destruct (Hk "status") as [sv Hs]; [tag_in|].
  destruct (Hk "owner") as [o Ho]; [tag_in|].
  destruct (Hk "created_at") as [c Hc]; [tag_in|].
  destruct (Hk "updated_at") as [u Hu]; [tag_in|].
  exists i, t, d, pv, sv, o, c, u. split_and!; try done.
  unfold from_dict, getitem. rewrite Hi, Ht, Hd, Hp, Hs, Ho, Hc, Hu. simpl.
  destruct (Priority_of pv); simpl; [|done].
  destruct (Status_of sv); simpl; done.
Qed.

(** C1. Round-trip law: decoding the encoding of any item gives back that
    very item, so every field, the optional due date included, is the one the
    item had; the encoded record carries a [due_date] key exactly when the
    item has a due date, and then with that value. *)
Theorem from_dict_to_dict_round_trip (x : TodoItem) :
  from_dict (to_dict x) = Ok x ∧
  to_dict x !! "due_date" = due_date x.
Proof.
  split.
  - apply from_dict_to_dict.
  - apply to_dict_due_date.
Qed.

(** C4. On a record with the mandatory keys, [from_dict] fails with the
    decoding error exactly when the priority value is none of HIGH, MID, LOW
    or the status value is none of PENDING, COMPLETED; a decoded item always
    carries the very members named by the record (no default is substituted),
    and every pair of members is decoded to itself. *)
Theorem from_dict_rejects_exactly_bad_enums
    (data : gmap string string) (pv sv : string) :
  has_mandatory_keys data = true →
  data !! "priority" = Some pv →
  data !! "status" = Some sv →
  (from_dict data = Raise DecodingError ↔
     pv ∉ priority_tags ∨ sv ∉ status_tags) ∧
  (∀ x, from_dict data = Ok x →
     Priority_value (priority x) = pv ∧ Status_value (status x) = sv) ∧
  (∀ p s, pv = Priority_value p → sv = Status_value s →
     ∃ x, from_dict data = Ok x ∧ priority x = p ∧ status x = s).
Proof.
  intros Hwf Hp Hs.
  destruct (from_dict_well_formed data Hwf)
    as (i & t & d & pv' & sv' & o & c & u & _ & _ & _ & Hp' & Hs' & _ & _ & _ & ->).
  rewrite Hp in Hp'. rewrite Hs in Hs'. simplify_eq.
  destruct (Priority_of_cases pv') as [(p & -> & Hpv & Hin)|[-> Hout]];
    destruct (Status_of_cases sv') as [(s & -> & Hsv & Hin')|[-> Hout']]; simpl.
  - split_and!.
    + split; [done|]. intros [?|?]; done.
    + intros x [= <-]. simpl. done.
    + intros p' s' Hp2 Hs2. eexists. split; [done|]. simpl.
      subst. split; [by destruct p, p'|by destruct s, s'].
  - split_and!; [naive_solver|done|].
    intros p' s' _ ->. exfalso. apply Hout', Status_value_tag.
  - split_and!; [naive_solver|done|].
    intros p' s' -> _. exfalso. apply Hout, Priority_value_tag.
  - split_and!; [naive_solver|done|].
    intros p' s' -> _. exfalso. apply Hout, Priority_value_tag.
Qed.

Lemma from_dict_rejects_exactly_bad_enums_witness :
  from_dict bob_bad_record = Raise DecodingError ↔
    "URGENT" ∉ priority_tags ∨ "COMPLETED" ∉ status_tags.
Proof.
  apply (from_dict_rejects_exactly_bad_enums bob_bad_record "URGENT" "COMPLETED");
    vm_compute; reflexivity.
Defined.

(** ** The store *)

Lemma add_todo_eq (x : TodoItem) (file : list (gmap string string)) :
  add_todo x file = (true, file ++ [to_dict x]).
Proof. reflexivity. Qed.

Lemma add_todos_eq (xs : list TodoItem) (file : list (gmap string string)) :
  add_todos xs file = file ++ (to_dict <$> xs).
Proof.
  unfold add_todos. revert file.
  induction xs as [|x xs IH]; intros file; simpl.
  - by rewrite app_nil_r.
  - rewrite IH. unfold _save_todos, _load_todos. by rewrite <- app_assoc.
Qed.

(** Listing a document made of encoded items: the items of the queried owner,
    in the order of the document. *)
Lemma get_user_todos_encoded (username : string) (xs : list TodoItem) :
  get_user_todos username (to_dict <$> xs)
  = Ok (filter (λ x, owner x = username) xs).
Proof.
  unfold get_user_todos, _load_todos.
  induction xs as [|x xs IH]; [done|].
  cbn [fmap list_fmap get_user_todos_loop].
  unfold getitem at 1. rewrite to_dict_owner. cbn [mbind result_bind].
  destruct (String.eqb_spec (owner x) username) as [Heq|Hne].
  - rewrite from_dict_to_dict. cbn [mbind result_bind].
    rewrite IH. cbn [mbind result_bind]. by rewrite filter_cons_True.
  - rewrite IH. by rewrite filter_cons_False.
Qed.

(** C3. After any sequence of [add_todo] calls on a freshly created todos
    file, the document holds the encoded items in the order they were added,
    and [get_user_todos] for an owner returns exactly the added items of that
    owner, none of another owner, in that same order. *)
Theorem get_user_todos_after_adds (xs : list TodoItem) (username : string) :
  add_todos xs (_ensure_file_exists None) = to_dict <$> xs ∧
  get_user_todos username (add_todos xs (_ensure_file_exists None))
  = Ok (filter (λ x, owner x = username) xs).
Proof.
  rewrite add_todos_eq. simpl. split; [done|]. apply get_user_todos_encoded.
Qed.

(** C8. [add_todo] returns [True] for every item and every document and
    appends the encoded item; no identifier is compared, so two items with
    the same [id] are both accepted and both records are in the document. *)
Theorem add_todo_no_uniqueness_check
    (x y : TodoItem) (file : list (gmap string string)) :
  add_todo x file = (true, file ++ [to_dict x]) ∧
  (id x = id y →
   let after_x := add_todo x file in
   let after_y := add_todo y (snd after_x) in
   fst after_x = true ∧ fst after_y = true ∧
   snd after_y = file ++ [to_dict x; to_dict y] ∧
   length (snd after_y) = length file + 2 ∧
   snd after_y !! length file = Some (to_dict x) ∧
   snd after_y !! S (length file) = Some (to_dict y)).
Proof.
  split; [apply add_todo_eq|]. intros _. simpl.
  unfold _save_todos, _load_todos. rewrite <- app_assoc. simpl.
  split_and!; try done.
  - rewrite length_app. simpl. lia.
  - by rewrite lookup_app_r, Nat.sub_diag by lia.
  - rewrite lookup_app_r by lia. by replace (S _ - _) with 1 by lia.
Qed.

Lemma add_todo_no_uniqueness_check_witness :
  id alice_todo = id alice_todo_again ∧
  snd (add_todo alice_todo_again (snd (add_todo alice_todo [])))
  = [to_dict alice_todo; to_dict alice_todo_again].
Proof.
  split; [reflexivity|].
  apply (proj2 (add_todo_no_uniqueness_check alice_todo alice_todo_again [])).
  reflexivity.
Defined.

(** On a record with the mandatory keys, decoding either succeeds, and then
    both enumerated values are members, or fails with the decoding error, and
    then one of them is not. *)
Lemma from_dict_outcome (data : gmap string string) :
  has_mandatory_keys data = true →
  ((∃ x, from_dict data = Ok x) ∧ ¬ bad_enum data) ∨
  (from_dict data = Raise DecodingError ∧ bad_enum data).
Proof.
  intros Hwf.
  destruct (from_dict_well_formed data Hwf)
    as (i & t & d & pv & sv & o & c & u & _ & _ & _ & Hp & Hs & _ & _ & _ & ->).
  destruct (Priority_of_cases pv) as [(p & -> & _ & Hin)|[-> Hout]]; simpl.
  - destruct (Status_of_cases sv) as [(s & -> & _ & Hin')|[-> Hout']]; simpl.
    + left. split; [eauto|]. intros [(pv' & Hp' & ?)|(sv' & Hs' & ?)]; simplify_eq; done.
    + right. split; [done|]. right. eauto.
  - right. split; [done|]. left. eauto.
Qed.

Lemma getitem_owner (data : gmap string string) :
  has_mandatory_keys data = true →
  ∃ o, data !! "owner" = Some o ∧ getitem data "owner" = Ok o.
Proof.
  intros Hwf. destruct (has_mandatory_keys_lookup data Hwf "owner") as [o Ho];
    [tag_in|].
  exists o. unfold getitem. by rewrite Ho.
Qed.

(** C5, as stated, fails: the document holds a record whose priority is
    outside the enumeration, yet listing Alice's items succeeds, because the
    owner test comes first and Bob's record is never decoded. *)
Lemma get_user_todos_skips_foreign_bad_record :
  Forall (λ r, has_mandatory_keys r = true) mixed_file ∧
  Exists bad_enum mixed_file ∧
  get_user_todos "alice" mixed_file = Ok [alice_todo].
Proof.
  split_and!.
  - repeat constructor.
  - left. left. exists "URGENT". split; [by vm_compute|].
    unfold priority_tags. tag_out.
  - vm_compute. reflexivity.
Qed.

(** C5, amended. On a document of records with the mandatory keys,
    [get_user_todos] selects by owner first and decodes only the selected
    records: it fails with the decoding error exactly when some record of the
    queried owner has a priority or status value outside its enumeration
    (nothing is skipped and no partial list is returned), and its outcome is
    the one it has on the queried owner's records alone. *)
Theorem get_user_todos_decodes_own_records_only
    (username : string) (file : list (gmap string string)) :
  Forall (λ r, has_mandatory_keys r = true) file →
  (get_user_todos username file = Raise DecodingError ↔
     Exists (λ r, r !! "owner" = Some username ∧ bad_enum r) file) ∧
  ((∃ xs, get_user_todos username file = Ok xs) ∨
   get_user_todos username file = Raise DecodingError) ∧
  get_user_todos username file
  = get_user_todos username
      (filter (λ r : gmap string string, r !! "owner" = Some username) file).
Proof.
  unfold get_user_todos, _load_todos.
  induction 1 as [|r rest Hwf _ (IH1 & IH2 & IH3)].
  - split_and!; [|by eauto|done]. split; [done|]. by intros ?%Exists_nil.
  - cbn [get_user_todos_loop].
    destruct (getitem_owner r Hwf) as (o & Ho & Hg). rewrite Hg.
    cbn [mbind result_bind].
    rewrite Exists_cons.
    destruct (String.eqb_spec o username) as [->|Hne].
    + rewrite filter_cons_True by done. cbn [get_user_todos_loop].
      rewrite Hg. cbn [mbind result_bind]. rewrite String.eqb_refl.
      destruct (from_dict_outcome r Hwf) as [[[x ->] Hgood]|[-> Hbad]];
        cbn [mbind result_bind].
      * rewrite <- IH3.
        destruct IH2 as [[xs Hxs]| Herr]; [rewrite Hxs|rewrite Herr];
          rewrite ?Hxs, ?Herr in IH1; cbn [mbind result_bind].
        -- split_and!; [|by eauto|done].
           split; [done|]. intros [[_ ?]|HE]; [done|]. by apply IH1 in HE.
        -- split_and!; [|by eauto|done].
           split; [|done]. intros _. right. by apply IH1.
      * split_and!; [|by eauto|done]. split; [|done]. intros _. by left.
    + rewrite filter_cons_False by congruence.
      split_and!; [|done..]. rewrite IH1. split; [by right|].
      intros [[? _]|?]; [congruence|done].
Qed.

Lemma get_user_todos_decodes_own_records_only_witness :
  get_user_todos "bob" mixed_file = Raise DecodingError ↔
  Exists (λ r, r !! "owner" = Some "bob" ∧ bad_enum r) mixed_file.
Proof.
  apply (get_user_todos_decodes_own_records_only "bob" mixed_file).
  repeat constructor.
Defined.

(** *** Lookup by identifier and update *)

Lemma located_list_find (todo_id : string) (file : list (gmap string string))
    (i : nat) (existing : gmap string string) :
  located todo_id file i existing ↔
  list_find (λ r : gmap string string, r !! "id" = Some todo_id) file
  = Some (i, existing).
Proof.
  unfold located. rewrite list_find_Some. split.
  - intros (? & ? & Hmin). split_and!; [done..|]. intros j y ? ?. by eapply Hmin.
  - intros (? & ? & Hmin). split_and!; [done..|]. intros j r ? ?. by eapply Hmin.
Qed.

Lemma absent_list_find (todo_id : string) (file : list (gmap string string)) :
  (∀ r, r ∈ file → r !! "id" ≠ Some todo_id) ↔
  list_find (λ r : gmap string string, r !! "id" = Some todo_id) file = None.
Proof. by rewrite list_find_None, Forall_forall. Qed.

(** A decoded item carries the identifier and the owner of its record. *)
Lemma from_dict_id_owner (data : gmap string string) (x : TodoItem) :
  from_dict data = Ok x →
  data !! "id" = Some (id x) ∧ data !! "owner" = Some (owner x).
Proof.
  unfold from_dict, getitem. intros H.
  destruct (data !! "id"); [|done]. cbn [mbind result_bind] in H.
  destruct (data !! "title"); [|done]. cbn [mbind result_bind] in H.
  destruct (data !! "details"); [|done]. cbn [mbind result_bind] in H.
  destruct (data !! "priority"); [|done]. cbn [mbind result_bind] in H.
  destruct (Priority_of _); [|done]. cbn [mbind result_bind] in H.
  destruct (data !! "status"); [|done]. cbn [mbind result_bind] in H.
  destruct (Status_of _); [|done]. cbn [mbind result_bind] in H.
  destruct (data !! "owner"); [|done]. cbn [mbind result_bind] in H.
  destruct (data !! "created_at"); [|done]. cbn [mbind result_bind] in H.
  destruct (data !! "updated_at"); [|done]. cbn [mbind result_bind] in H.
  by injection H as <-.
Qed.




(** C6. [get_todo_by_id] answers [None] when the record located by the
    identifier belongs to another owner, the same answer as when no record
    carries the identifier; whatever item it returns belongs to the asking
    owner, so another user's item is never handed out. *)
Theorem get_todo_by_id_owner_isolation
    (todo_id username : string) (file : list (gmap string string)) :
  ((∀ r, r ∈ file → r !! "id" ≠ Some todo_id) →
   get_todo_by_id todo_id username file = Ok None) ∧
  (∀ i existing,
     located todo_id file i existing →
     existing !! "owner" ≠ Some username →
     get_todo_by_id todo_id username file = Ok None) ∧
  (∀ x, get_todo_by_id todo_id username file = Ok (Some x) →
     owner x = username ∧ id x = todo_id).
Proof.
  unfold get_todo_by_id, _load_todos. split_and!.
  - intros Habs%absent_list_find. by rewrite Habs.
  - intros i existing Hloc%located_list_find Hown. rewrite Hloc.
    by rewrite bool_decide_eq_false_2.
  - intros x.
    destruct (list_find _ file) as [[i existing]|] eqn:Hfind; [|done].
    apply located_list_find in Hfind as (_ & Hid & _).
    case_bool_decide as Hown; [|done].
    destruct (from_dict existing) as [y|e] eqn:Hdec; [|done].
    cbn [mbind result_bind]. intros [= <-].
    apply from_dict_id_owner in Hdec as [Hid' Hown'].
    rewrite Hid in Hid'. rewrite Hown in Hown'. by simplify_eq.
Qed.

Lemma get_todo_by_id_owner_isolation_witness :
  get_todo_by_id "A" "bob" [to_dict bob_todo; to_dict alice_todo] = Ok None ∧
  get_todo_by_id "Z" "bob" [to_dict bob_todo; to_dict alice_todo] = Ok None ∧
  get_todo_by_id "A" "alice" [to_dict bob_todo; to_dict alice_todo]
  = Ok (Some alice_todo).
Proof.
  pose proof (get_todo_by_id_owner_isolation "A" "bob"
                [to_dict bob_todo; to_dict alice_todo]) as (_ & Hother & _).
  pose proof (get_todo_by_id_owner_isolation "Z" "bob"
                [to_dict bob_todo; to_dict alice_todo]) as (Habsent & _ & _).
  split_and!.
  - apply (Hother 1 (to_dict alice_todo)).
    + split_and!; [reflexivity|by vm_compute|].
      intros [|j] r Hj Hr; [|lia]. injection Hr as <-. by vm_compute.
    + by vm_compute.
  - apply Habsent. intros r Hr.
    apply elem_of_cons in Hr as [->|Hr]; [by vm_compute|].
    apply list_elem_of_singleton in Hr as ->. by vm_compute.
  - vm_compute. reflexivity.
Defined.




(** ** The CLI add path *)

Section AddPath.

Variable upper : string → string.

(** With three lines to read the handler returns normally, having written
    its three prompts, consumed exactly those lines and appended one
    record. *)
Lemma handle_add_todo_three_lines
    (current_user fresh_id now l1 l2 l3 : string) (rest out : list string)
    (file : list (gmap string string)) :
  ∃ notice,
    (notice = [] ∨ notice = ["Invalid priority. Defaulting to MID."]) ∧
    handle_add_todo upper current_user fresh_id now
      {| stdin := l1 :: l2 :: l3 :: rest; stdout := out; todos_file := file |}
    = (Ok tt,
       {| stdin := rest;
          stdout := out ++ add_prompts ++ notice ++ ["Todo added successfully!"];
          todos_file :=
            file ++ [to_dict (TodoItem_new (strip l1) (strip l2)
                                (entered_priority upper l3) PENDING
                                current_user fresh_id now)] |}).
Proof.
  unfold handle_add_todo, entered_priority, add_prompts, io_bind, input.
  cbn [stdin stdout todos_file tail].
  destruct (Priority_of_cases (upper (strip l3))) as [(p & -> & _)|[-> _]];
    unfold io_ret, io_bind, print, todo_manager_add_todo;
    cbn [stdin stdout todos_file]; rewrite add_todo_eq;
    cbn [stdin stdout todos_file]; rewrite <- !app_assoc; cbn [app].
  - exists []. split; [by left|]. reflexivity.
  - exists ["Invalid priority. Defaulting to MID."]. split; [by right|].
    reflexivity.
Qed.

(** With fewer than three lines the handler stops at an [input] call and
    the todos file is untouched. *)
Lemma handle_add_todo_short_input
    (current_user fresh_id now : string) (w : world) :
  length (stdin w) < 3 →
  fst (handle_add_todo upper current_user fresh_id now w) = Raise EOFError ∧
  todos_file (snd (handle_add_todo upper current_user fresh_id now w))
  = todos_file w.
Proof.
  destruct w as [[|l1 [|l2 [|l3 rest]]] out file]; cbn [stdin length].
  4: lia.
  all: intros _; unfold handle_add_todo, io_bind, input;
    cbn [stdin stdout todos_file tail fst snd]; done.
Qed.

(** C9. Whatever is typed, [handle_add_todo] either runs out of input and
    leaves the todos file as it was, or reads exactly three lines, for its
    three prompts (title, details, priority: no due date and no status is
    asked for), and appends the encoding of one item whose status is PENDING
    and whose due date is absent. *)
Theorem handle_add_todo_pending_no_due_date
    (current_user fresh_id now : string) (w : world) :
  let run := handle_add_todo upper current_user fresh_id now w in
  (length (stdin w) < 3 ∧ fst run = Raise EOFError ∧
   todos_file (snd run) = todos_file w) ∨
  (fst run = Ok tt ∧ stdin (snd run) = drop 3 (stdin w) ∧
   (∃ notice,
      (notice = [] ∨ notice = ["Invalid priority. Defaulting to MID."]) ∧
      stdout (snd run)
      = stdout w ++ add_prompts ++ notice ++ ["Todo added successfully!"]) ∧
   ∃ todo,
     todos_file (snd run) = todos_file w ++ [to_dict todo] ∧
     owner todo = current_user ∧
     status todo = PENDING ∧ due_date todo = None ∧
     to_dict todo !! "status" = Some "PENDING" ∧
     to_dict todo !! "due_date" = None).
Proof.
  intros run. destruct (decide (length (stdin w) < 3)) as [Hshort|Hlong].
  - left. split; [done|]. by apply handle_add_todo_short_input.
  - right. destruct w as [[|l1 [|l2 [|l3 rest]]] out file];
      cbn [stdin length] in Hlong; try lia.
    destruct (handle_add_todo_three_lines current_user fresh_id now
                l1 l2 l3 rest out file) as (notice & Hnotice & Hrun).
    subst run. rewrite Hrun. cbn [fst snd stdin stdout todos_file drop].
    split_and!; [done..|by exists notice|]. eexists. split; [reflexivity|].
    split_and!; [done..| |by rewrite to_dict_due_date].
    unfold to_dict, TodoItem_new. simpl. by simplify_map_eq.
Qed.

(** C10. An entered title that strips to the empty string is not turned
    away: the handler goes on, returns normally, and the record it appends
    is the encoding of an item whose title is the empty string. *)
Theorem handle_add_todo_accepts_empty_title
    (current_user fresh_id now l1 l2 l3 : string) (rest out : list string)
    (file : list (gmap string string)) :
  strip l1 = "" →
  let run :=
    handle_add_todo upper current_user fresh_id now
      {| stdin := l1 :: l2 :: l3 :: rest; stdout := out;
         todos_file := file |} in
  fst run = Ok tt ∧
  ∃ todo,
    todos_file (snd run) = file ++ [to_dict todo] ∧
    todo = TodoItem_new "" (strip l2) (entered_priority upper l3) PENDING
             current_user fresh_id now ∧
    title todo = "" ∧ to_dict todo !! "title" = Some "".
Proof.
  intros Hempty run.
  destruct (handle_add_todo_three_lines current_user fresh_id now
              l1 l2 l3 rest out file) as (notice & _ & Hrun).
  subst run. rewrite Hrun, Hempty. cbn [fst snd todos_file].
  split; [done|]. eexists. split_and!; [reflexivity..| |]; [done|].
  unfold to_dict, TodoItem_new. simpl. by simplify_map_eq.
Qed.

End AddPath.

Lemma handle_add_todo_accepts_empty_title_witness :
  strip "  " = "" ∧
  todos_file
    (snd (handle_add_todo upper_ascii "alice" "A" "2025-01-20T10:00:00"
            {| stdin := ["  "; "no title"; "low"]; stdout := [];
               todos_file := [] |}))
  = [to_dict (TodoItem_new "" "no title" LOW PENDING "alice" "A"
                "2025-01-20T10:00:00")].
Proof.
  split; [reflexivity|].
  destruct (handle_add_todo_accepts_empty_title upper_ascii "alice" "A"
              "2025-01-20T10:00:00" "  " "no title" "low" [] [] [])
    as (_ & todo & -> & -> & _); reflexivity.
Defined.

(** ** The account store *)

Lemma user_record_username (u p : string) :
  AuthManager.user_record u p !! "username" = Some u.
Proof. unfold AuthManager.user_record. by simplify_map_eq. Qed.

Lemma user_record_password (u p : string) :
  AuthManager.user_record u p !! "password" = Some p.
Proof. unfold AuthManager.user_record. by simplify_map_eq. Qed.

(** The scan for a name answers [False] exactly on a file whose records all
    carry a name, none of them the one looked for. *)
Lemma any_username_false (u : string) (users : list (gmap string string)) :
  AuthManager.any_username u users = Ok false ↔
  Forall (λ r : gmap string string, ∃ n, r !! "username" = Some n ∧ n ≠ u) users.
Proof.
  induction users as [|r users IH]; simpl.
  - split; [by constructor|done].
  - rewrite Forall_cons. unfold getitem.
    destruct (r !! "username") as [n|]; cbn [mbind result_bind].
    + destruct (String.eqb_spec n u) as [->|Hne].
      * split; [done|]. intros [(n & [= <-] & ?) _]. done.
      * rewrite IH. split; [intros ?; split; eauto|]. by intros [_ ?].
    + split; [done|]. by intros [(n & ? & _) _].
Qed.

Lemma any_username_not_in (u : string) (users : list (gmap string string)) :
  AuthManager.any_username u users = Ok false → u ∉ usernames users.
Proof.
  rewrite any_username_false. unfold usernames.
  induction 1 as [|r users (n & Hn & Hne) _ IH]; simpl.
  - apply not_elem_of_nil.
  - rewrite Hn. simpl. apply not_elem_of_cons. split; [congruence|done].
Qed.

Lemma any_username_app (u : string) (l1 l2 : list (gmap string string)) :
  AuthManager.any_username u (l1 ++ l2)
  = match AuthManager.any_username u l1 with
    | Ok false => AuthManager.any_username u l2
    | r => r
    end.
Proof.
  induction l1 as [|r l1 IH]; simpl; [done|].
  destruct (getitem r "username") as [n|e]; cbn [mbind result_bind]; [|done].
  by destruct (String.eqb n u).
Qed.

Lemma any_credentials_app (u p : string) (l1 l2 : list (gmap string string)) :
  AuthManager.any_credentials u p (l1 ++ l2)
  = match AuthManager.any_credentials u p l1 with
    | Ok false => AuthManager.any_credentials u p l2
    | r => r
    end.
Proof.
  induction l1 as [|r l1 IH]; simpl; [done|].
  destruct (getitem r "username") as [n|e]; cbn [mbind result_bind]; [|done].
  destruct (String.eqb n u); [|done].
  destruct (getitem r "password") as [q|e]; cbn [mbind result_bind]; [|done].
  by destruct (String.eqb q p).
Qed.

(** On a file of records that all carry a name other than [u], the credential
    scan for [u] finds nothing and reads no password. *)
Lemma any_credentials_other_names (u p : string)
    (users : list (gmap string string)) :
  Forall (λ r : gmap string string, ∃ n, r !! "username" = Some n ∧ n ≠ u) users →
  AuthManager.any_credentials u p users = Ok false.
Proof.
  induction 1 as [|r users (n & Hn & Hne) _ IH]; simpl; [done|].
  unfold getitem. rewrite Hn. cbn [mbind result_bind].
  by destruct (String.eqb_spec n u).
Qed.

Lemma any_credentials_user_record (u p u' p' : string) :
  AuthManager.any_credentials u' p' [AuthManager.user_record u p]
  = Ok (bool_decide (u = u' ∧ p = p')).
Proof.
  cbn [AuthManager.any_credentials]. unfold getitem.
  rewrite user_record_username, user_record_password.
  cbn [mbind result_bind].
  destruct (String.eqb_spec u u') as [->|?]; cbn [mbind result_bind].
  - destruct (String.eqb_spec p p') as [->|?].
    + by rewrite bool_decide_eq_true_2.
    + rewrite bool_decide_eq_false_2; [done|]. by intros [_ ?].
  - rewrite bool_decide_eq_false_2; [done|]. by intros [? _].
Qed.

(** On a file whose records carry both keys, [login] is the membership test
    for the pair. *)
Lemma login_credentials_present (u p : string)
    (users : list (gmap string string)) :
  credentials_present users →
  AuthManager.login u p users
  = Ok (bool_decide
          (Exists (λ r : gmap string string,
                     r !! "username" = Some u ∧ r !! "password" = Some p) users)).
Proof.
  unfold AuthManager.login, AuthManager._load_users.
  induction 1 as [|r users [[n Hn] [q Hq]] _ IH].
  - done.
  - cbn [AuthManager.any_credentials]. unfold getitem. rewrite Hn. cbn [mbind result_bind].
    destruct (String.eqb_spec n u) as [->|Hne].
    + rewrite Hq. cbn [mbind result_bind].
      destruct (String.eqb_spec q p) as [->|Hne].
      * rewrite bool_decide_eq_true_2; [done|]. by left.
      * rewrite IH. f_equal. apply bool_decide_ext. rewrite Exists_cons.
        split; [by right|]. intros [[_ ?]|?]; [congruence|done].
    + rewrite IH. f_equal. apply bool_decide_ext. rewrite Exists_cons.
      split; [by right|]. intros [[? _]|?]; [congruence|done].
Qed.

Lemma register_outcome (u p : string) (users : list (gmap string string)) :
  (AuthManager.any_username u users = Ok false ∧
   AuthManager.register u p users
   = (Ok true, users ++ [AuthManager.user_record u p])) ∨
  (AuthManager.any_username u users ≠ Ok false ∧
   snd (AuthManager.register u p users) = users ∧
   fst (AuthManager.register u p users) ≠ Ok true).
Proof.
  unfold AuthManager.register, AuthManager._load_users, AuthManager._save_users.
  destruct (AuthManager.any_username u users) as [[|]|e]; simpl.
  - right. by split_and!.
  - left. by split.
  - right. by split_and!.
Qed.

Lemma credentials_present_register (u p : string)
    (users : list (gmap string string)) :
  credentials_present users →
  credentials_present (snd (AuthManager.register u p users)).
Proof.
  intros Hwf. destruct (register_outcome u p users) as [[_ ->]|(_ & -> & _)];
    [|done].
  apply Forall_app. split; [done|]. constructor; [|constructor].
  rewrite user_record_username, user_record_password. split; eauto.
Qed.

(** X1. Registering a name no record carries succeeds, appends the record
    with the password as given, and the same credentials then log in. *)
Theorem register_then_login (u p : string) (users : list (gmap string string)) :
  Forall (λ r : gmap string string, ∃ n, r !! "username" = Some n ∧ n ≠ u) users →
  AuthManager.register u p users
  = (Ok true, users ++ [AuthManager.user_record u p]) ∧
  AuthManager.login u p (snd (AuthManager.register u p users)) = Ok true.
Proof.
  intros Hfresh. pose proof Hfresh as Hscan%any_username_false.
  destruct (register_outcome u p users) as [[_ Hreg]|[? _]]; [|done].
  rewrite Hreg. split; [done|]. simpl.
  unfold AuthManager.login, AuthManager._load_users.
  rewrite any_credentials_app, any_credentials_other_names by done.
  rewrite any_credentials_user_record. by rewrite bool_decide_eq_true_2.
Qed.

Lemma register_then_login_witness :
  AuthManager.login "bob" "hunter2"
    (snd (AuthManager.register "bob" "hunter2"
            [AuthManager.user_record "alice" "s3cret"])) = Ok true.
Proof.
  apply (register_then_login "bob" "hunter2"
           [AuthManager.user_record "alice" "s3cret"]).
  constructor; [|constructor]. exists "alice". split; [by vm_compute|done].
Defined.

(** X2. Registering a name that a record already carries returns [False] and
    writes nothing, whatever the password and whatever follows that record
    in the file. *)
Theorem register_taken_name (u p : string) (users : list (gmap string string))
    (i : nat) (r : gmap string string) :
  users !! i = Some r →
  r !! "username" = Some u →
  (∀ j r', j < i → users !! j = Some r' → is_Some (r' !! "username")) →
  AuthManager.register u p users = (Ok false, users).
Proof.
  intros Hi Hr Hbefore.
  assert (AuthManager.any_username u users = Ok true) as Hscan.
  { revert i Hi Hbefore. induction users as [|r0 users IH]; intros i Hi Hbefore;
      [done|]. simpl. destruct i as [|i]; simpl in Hi.
    - injection Hi as ->. unfold getitem. rewrite Hr. cbn [mbind result_bind].
      by rewrite String.eqb_refl.
    - destruct (Hbefore 0 r0) as [n Hn]; [lia|done|]. unfold getitem.
      rewrite Hn. cbn [mbind result_bind]. destruct (String.eqb n u); [done|].
      apply (IH i); [done|]. intros j r' Hj Hr'. apply (Hbefore (S j) r'); [lia|done]. }
  unfold AuthManager.register, AuthManager._load_users. by rewrite Hscan.
Qed.

Lemma register_taken_name_witness :
  AuthManager.register "alice" "other"
    [AuthManager.user_record "bob" "hunter2";
     AuthManager.user_record "alice" "s3cret"]
  = (Ok false, [AuthManager.user_record "bob" "hunter2";
                AuthManager.user_record "alice" "s3cret"]).
Proof.
  apply (register_taken_name "alice" "other" _ 1
           (AuthManager.user_record "alice" "s3cret")).
  - reflexivity.
  - by vm_compute.
  - intros [|j] r' Hj Hr'; [|lia]. injection Hr' as <-.
    rewrite user_record_username. eauto.
Defined.

(** X3. [register] keeps the registered names pairwise distinct: whatever
    its outcome, a file without a repeated name is left without one. *)
Theorem register_keeps_usernames_distinct (u p : string)
    (users : list (gmap string string)) :
  NoDup (usernames users) →
  NoDup (usernames (snd (AuthManager.register u p users))).
Proof.
  intros Hnodup.
  destruct (register_outcome u p users) as [[Hscan ->]|(_ & -> & _)]; [|done].
  simpl. unfold usernames. rewrite omap_app. simpl.
  rewrite user_record_username. simpl. apply NoDup_app. split_and!; [done| |].
  - intros n Hn ->%list_elem_of_singleton.
    by apply any_username_not_in in Hscan.
  - apply NoDup_singleton.
Qed.

Lemma register_keeps_usernames_distinct_witness :
  NoDup (usernames (snd (AuthManager.register "bob" "hunter2"
                           [AuthManager.user_record "alice" "s3cret"]))).
Proof.
  apply register_keeps_usernames_distinct.
  vm_compute. apply NoDup_singleton.
Defined.

(** X4. On a users file whose records carry both keys, [login] raises
    nothing and answers [True] exactly when some record holds that very name
    with that very password. *)
Theorem login_iff_stored_pair (u p : string)
    (users : list (gmap string string)) :
  credentials_present users →
  (AuthManager.login u p users = Ok true ↔
   ∃ r, r ∈ users ∧ r !! "username" = Some u ∧ r !! "password" = Some p) ∧
  (AuthManager.login u p users = Ok true ∨
   AuthManager.login u p users = Ok false).
Proof.
  intros Hwf. rewrite (login_credentials_present u p users Hwf). split.
  - rewrite <- Exists_exists. split.
    + intros [= Hb]. by apply bool_decide_eq_true in Hb.
    + intros HE. by rewrite bool_decide_eq_true_2.
  - destruct (bool_decide _); eauto.
Qed.

Lemma login_iff_stored_pair_witness :
  AuthManager.login "alice" "S3cret"
    [AuthManager.user_record "bob" "hunter2";
     AuthManager.user_record "alice" "s3cret"] = Ok true ∨
  AuthManager.login "alice" "S3cret"
    [AuthManager.user_record "bob" "hunter2";
     AuthManager.user_record "alice" "s3cret"] = Ok false.
Proof.
  apply (login_iff_stored_pair "alice" "S3cret").
  repeat constructor; rewrite ?user_record_username, ?user_record_password;
    eauto.
Defined.

(** X5. A registration under one name changes no outcome of [login] for any
    other name, on any file at all. *)
Theorem register_frames_other_names (u p u' p' : string)
    (users : list (gmap string string)) :
  u ≠ u' →
  AuthManager.login u' p' (snd (AuthManager.register u p users))
  = AuthManager.login u' p' users.
Proof.
  intros Hne.
  destruct (register_outcome u p users) as [[_ ->]|(_ & -> & _)]; [|done].
  simpl. unfold AuthManager.login, AuthManager._load_users.
  rewrite any_credentials_app, any_credentials_user_record.
  rewrite bool_decide_eq_false_2 by (by intros [? _]).
  by destruct (AuthManager.any_credentials u' p' users) as [[|]|e].
Qed.

Lemma register_frames_other_names_witness :
  AuthManager.login "alice" "s3cret"
    (snd (AuthManager.register "bob" "hunter2"
            [AuthManager.user_record "alice" "s3cret"]))
  = AuthManager.login "alice" "s3cret"
      [AuthManager.user_record "alice" "s3cret"].
Proof.
  apply (register_frames_other_names "bob" "hunter2" "alice" "s3cret").
  discriminate.
Defined.

(** X6. Credentials that log in keep logging in after any call of
    [register], with any name and password: no registration can lock an
    account out or replace its password. *)
Theorem register_keeps_logins (u p u' p' : string)
    (users : list (gmap string string)) :
  AuthManager.login u p users = Ok true →
  AuthManager.login u p (snd (AuthManager.register u' p' users)) = Ok true.
Proof.
  intros Hlogin.
  destruct (register_outcome u' p' users) as [[_ ->]|(_ & -> & _)]; [|done].
  simpl. unfold AuthManager.login, AuthManager._load_users in *.
  by rewrite any_credentials_app, Hlogin.
Qed.

Lemma register_keeps_logins_witness :
  AuthManager.login "alice" "s3cret"
    (snd (AuthManager.register "alice" "stolen"
            [AuthManager.user_record "alice" "s3cret"])) = Ok true.
Proof.
  apply (register_keeps_logins "alice" "s3cret" "alice" "stolen").
  vm_compute. reflexivity.
Defined.

(** X7. A record without the [username] key, met before any record of the
    name looked for, makes both [register] and [login] raise [KeyError]; the
    file is not written. *)
Theorem malformed_user_record_raises (u p : string)
    (good rest : list (gmap string string)) (bad : gmap string string) :
  Forall (λ r : gmap string string, ∃ n, r !! "username" = Some n ∧ n ≠ u) good →
  bad !! "username" = None →
  AuthManager.register u p (good ++ bad :: rest)
  = (Raise (KeyError "username"), good ++ bad :: rest) ∧
  AuthManager.login u p (good ++ bad :: rest) = Raise (KeyError "username").
Proof.
  intros Hgood Hbad. split.
  - unfold AuthManager.register, AuthManager._load_users.
    rewrite any_username_app, (proj2 (any_username_false u good) Hgood).
    simpl. unfold getitem. by rewrite Hbad.
  - unfold AuthManager.login, AuthManager._load_users.
    rewrite any_credentials_app, any_credentials_other_names by done.
    simpl. unfold getitem. by rewrite Hbad.
Qed.

Lemma malformed_user_record_raises_witness :
  AuthManager.login "bob" "hunter2"
    ([AuthManager.user_record "alice" "s3cret"]
     ++ {["password" := "hunter2"]} :: [AuthManager.user_record "bob" "hunter2"])
  = Raise (KeyError "username").
Proof.
  apply (malformed_user_record_raises "bob" "hunter2"
           [AuthManager.user_record "alice" "s3cret"]
           [AuthManager.user_record "bob" "hunter2"]
           {["password" := "hunter2"]}).
  - constructor; [|constructor]. exists "alice". split; [by vm_compute|done].
  - by vm_compute.
Defined.

Lemma usernames_snoc (users : list (gmap string string)) (u p : string) :
  usernames (users ++ [AuthManager.user_record u p]) = usernames users ++ [u].
Proof.
  unfold usernames. rewrite omap_app. simpl. by rewrite user_record_username.
Qed.

(** A scan that answers otherwise than [False] on a file whose records carry
    both keys has met the name. *)
Lemma any_username_taken (u : string) (users : list (gmap string string)) :
  credentials_present users →
  AuthManager.any_username u users ≠ Ok false →
  u ∈ usernames users.
Proof.
  induction 1 as [|r users [[n Hn] _] _ IH]; [done|].
  cbn [AuthManager.any_username]. unfold getitem, usernames. rewrite Hn.
  cbn [mbind result_bind omap list_omap]. rewrite Hn.
  destruct (String.eqb_spec n u) as [->|?]; intros Hscan.
  - by left.
  - right. by apply IH.
Qed.

Lemma stored_pair_username (u p : string) (users : list (gmap string string)) :
  Exists (λ r : gmap string string,
            r !! "username" = Some u ∧ r !! "password" = Some p) users →
  u ∈ usernames users.
Proof.
  unfold usernames. induction 1 as [r users [Hn _]|r users _ IH]; simpl.
  - rewrite Hn. by left.
  - destruct (r !! "username"); [by right|done].
Qed.

(** The file a sequence of registrations leaves, started from any file whose
    records carry both keys: the pair logs in exactly when the file held it
    already, or the name was free and the first registration under that name
    gave that password. *)
Lemma login_after_registers_from (accounts : list (string * string))
    (u p : string) (users : list (gmap string string)) :
  credentials_present users →
  credentials_present (AuthManager.registers accounts users) ∧
  (AuthManager.login u p (AuthManager.registers accounts users) = Ok true ↔
   Exists (λ r : gmap string string,
             r !! "username" = Some u ∧ r !! "password" = Some p) users ∨
   ((u ∉ usernames users) ∧ first_registration u accounts = Some p)).
Proof.
  revert users. induction accounts as [|[u0 p0] accounts IH]; intros users Hwf.
  - simpl. split; [done|]. rewrite (login_credentials_present u p users Hwf).
    split.
    + intros [= Hb]. left. by apply bool_decide_eq_true in Hb.
    + intros [HE|[_ ?]]; [|done]. by rewrite bool_decide_eq_true_2.
  - unfold AuthManager.registers. cbn [foldl fst snd].
    fold (AuthManager.registers accounts
            (snd (AuthManager.register u0 p0 users))).
    pose proof (credentials_present_register u0 p0 users Hwf) as Hwf'.
    destruct (IH _ Hwf') as [Hwf'' Hiff]. split; [done|]. rewrite Hiff.
    clear IH Hiff Hwf'' Hwf'. cbn [first_registration].
    destruct (register_outcome u0 p0 users) as [[Hscan ->]|(Hscan & -> & _)];
      cbn [snd].
    + apply any_username_not_in in Hscan as Hfresh.
      rewrite usernames_snoc, Exists_app, Exists_cons, Exists_nil.
      rewrite user_record_username, user_record_password.
      rewrite elem_of_app, list_elem_of_singleton.
      destruct (String.eqb_spec u0 u) as [->|Hne].
      * split.
        -- intros [[?|[[_ [= ->]]|[]]]|[Hnot _]]; [by left|by right|].
           exfalso. apply Hnot. by right.
        -- intros [?|[_ [= ->]]]; [by do 2 left|]. left. right. by left.
      * split.
        -- intros [[?|[[[= ?] _]|[]]]|[Hnot Hfind]]; [by left|done|].
           right. split; [|done]. intros ?. apply Hnot. by left.
        -- intros [?|[Hnot Hfind]]; [by do 2 left|]. right.
           split; [|done]. intros [?|?]; [done|congruence].
    + pose proof (any_username_taken u0 users Hwf Hscan) as Htaken.
      destruct (String.eqb_spec u0 u) as [->|Hne]; [|done].
      split; (intros [?|[? _]]; [by left|done]).
Qed.

(** X8. After any sequence of registrations on a freshly created users
    file, [login] raises nothing, and a pair logs in exactly when the first
    registration under that name gave that password: later registrations
    under the same name are without effect. *)
Theorem login_after_registers (accounts : list (string * string))
    (u p : string) :
  AuthManager.login u p
    (AuthManager.registers accounts (AuthManager._ensure_file_exists None))
  = Ok (bool_decide (first_registration u accounts = Some p)).
Proof.
  simpl.
  destruct (login_after_registers_from accounts u p []) as [Hwf Hiff];
    [constructor|].
  pose proof (login_credentials_present u p _ Hwf) as Hlogin.
  destruct (bool_decide (Exists _ _)) in Hlogin.
  - rewrite Hlogin. apply Hiff in Hlogin as [[]%Exists_nil|[_ Hfind]].
    by rewrite bool_decide_eq_true_2.
  - rewrite Hlogin. rewrite bool_decide_eq_false_2; [done|]. intros Hfind.
    assert (AuthManager.login u p (AuthManager.registers accounts []) = Ok true)
      as Htrue; [|congruence].
    apply Hiff. right. split; [apply not_elem_of_nil|done].
Qed.

(** ** Sample sessions *)

Example session_signup_login_add_view_exit :
  ∃ s',
    Menu.run upper_ascii (λ n, "id-" +:+ pretty n) (λ n, "t" +:+ pretty n) 20
      (Menu.App_init None None
         ["2"; "alice"; "s3cret"; "1"; "alice"; "s3cret"; "1"; "Buy milk";
          "2 litres"; "high"; "2"; "4"])
    = Some (Menu.SystemExit, s') ∧
    Menu.users_file s' = [AuthManager.user_record "alice" "s3cret"] ∧
    todos_file (Menu.console s')
    = [to_dict (TodoItem_new "Buy milk" "2 litres" HIGH PENDING "alice"
                  "id-0" "t0")] ∧
    stdin (Menu.console s') = [] ∧
    last (stdout (Menu.console s')) = Some "Goodbye!".
Proof. eexists. split; [vm_compute; reflexivity|]. by vm_compute. Qed.

(** ** The todo store on arbitrary documents *)

Lemma get_user_todos_loop_app (u : string) (l1 l2 : list (gmap string string)) :
  get_user_todos_loop u (l1 ++ l2)
  = (xs ← get_user_todos_loop u l1; ys ← get_user_todos_loop u l2; Ok (xs ++ ys)).
Proof.
  induction l1 as [|r l1 IH]; cbn [app get_user_todos_loop].
  - cbn [mbind result_bind]. by destruct (get_user_todos_loop u l2).
  - destruct (getitem r "owner") as [o|e]; cbn [mbind result_bind]; [|done].
    destruct (String.eqb o u); [|done].
    destruct (from_dict r) as [x|e]; cbn [mbind result_bind]; [|done].
    rewrite IH. destruct (get_user_todos_loop u l1) as [xs|e];
      cbn [mbind result_bind]; [|done].
    by destruct (get_user_todos_loop u l2).
Qed.

Lemma get_user_todos_loop_to_dict (u : string) (x : TodoItem) :
  get_user_todos_loop u [to_dict x]
  = Ok (if bool_decide (owner x = u) then [x] else []).
Proof.
  cbn [get_user_todos_loop]. unfold getitem. rewrite to_dict_owner.
  cbn [mbind result_bind].
  destruct (String.eqb_spec (owner x) u) as [Heq|Hne].
  - rewrite from_dict_to_dict. cbn [mbind result_bind].
    by rewrite bool_decide_eq_true_2.
  - by rewrite bool_decide_eq_false_2.
Qed.

(** X9. Whatever the document holds, a listing that succeeds returns, in
    document order, the decodings of exactly the records whose owner is the
    queried name, so every returned item belongs to that name and the records
    of other owners do not show. *)
Theorem get_user_todos_only_own (u : string) (file : list (gmap string string))
    (xs : list TodoItem) :
  get_user_todos u file = Ok xs →
  Forall2 (λ (r : gmap string string) x, from_dict r = Ok x)
    (filter (λ r : gmap string string, r !! "owner" = Some u) file) xs ∧
  Forall (λ x, owner x = u) xs.
Proof.
  unfold get_user_todos, _load_todos. revert xs.
  induction file as [|r file IH]; intros xs; cbn [get_user_todos_loop].
  - intros [= <-]. by split; constructor.
  - unfold getitem. destruct (r !! "owner") as [o|] eqn:Ho;
      cbn [mbind result_bind]; [|done].
    destruct (String.eqb_spec o u) as [->|Hne].
    + rewrite filter_cons_True by done.
      destruct (from_dict r) as [x|e] eqn:Hx; cbn [mbind result_bind]; [|done].
      destruct (get_user_todos_loop u file) as [ys|e];
        cbn [mbind result_bind]; [|done].
      intros [= <-]. destruct (IH ys eq_refl) as [IH1 IH2].
      split; constructor; try done.
      apply from_dict_id_owner in Hx as [_ Hx]. congruence.
    + rewrite filter_cons_False by congruence. apply IH.
Qed.

Lemma get_user_todos_only_own_witness :
  Forall (λ x, owner x = "alice") [alice_todo].
Proof.
  apply (get_user_todos_only_own "alice" mixed_file [alice_todo]).
  vm_compute. reflexivity.
Defined.

(** X10. Adding an item for one owner changes nothing in what
    [get_user_todos] answers for any other name, error outcomes included, on
    any document. *)
Theorem add_todo_frames_other_owners (x : TodoItem) (u : string)
    (file : list (gmap string string)) :
  owner x ≠ u →
  get_user_todos u (snd (add_todo x file)) = get_user_todos u file.
Proof.
  intros Hne. rewrite add_todo_eq. cbn [snd].
  unfold get_user_todos, _load_todos.
  rewrite get_user_todos_loop_app, get_user_todos_loop_to_dict.
  rewrite bool_decide_eq_false_2 by done.
  destruct (get_user_todos_loop u file) as [xs|e]; cbn [mbind result_bind];
    [|done].
  by rewrite app_nil_r.
Qed.

Lemma add_todo_frames_other_owners_witness :
  get_user_todos "alice" (snd (add_todo bob_todo mixed_file))
  = get_user_todos "alice" mixed_file.
Proof.
  apply (add_todo_frames_other_owners bob_todo "alice" mixed_file).
  discriminate.
Defined.

(** X11. When the owner's listing succeeds on a document, it succeeds after
    [add_todo] too and is the former listing with the new item at its
    end. *)
Theorem add_todo_extends_own_listing (x : TodoItem)
    (file : list (gmap string string)) (xs : list TodoItem) :
  get_user_todos (owner x) file = Ok xs →
  get_user_todos (owner x) (snd (add_todo x file)) = Ok (xs ++ [x]).
Proof.
  rewrite add_todo_eq. cbn [snd]. unfold get_user_todos, _load_todos.
  intros Hxs. rewrite get_user_todos_loop_app, Hxs, get_user_todos_loop_to_dict.
  cbn [mbind result_bind]. by rewrite bool_decide_eq_true_2.
Qed.

Lemma add_todo_extends_own_listing_witness :
  get_user_todos "alice" (snd (add_todo alice_todo_again mixed_file))
  = Ok ([alice_todo] ++ [alice_todo_again]).
Proof.
  apply (add_todo_extends_own_listing alice_todo_again mixed_file [alice_todo]).
  vm_compute. reflexivity.
Defined.

(** X12. A record without the [owner] key stops every listing that reaches
    it: if the listing of the records before it succeeds, [get_user_todos]
    raises [KeyError] for every name, whoever the other records belong
    to. *)
Theorem get_user_todos_missing_owner (u : string)
    (good rest : list (gmap string string)) (bad : gmap string string)
    (xs : list TodoItem) :
  get_user_todos u good = Ok xs →
  bad !! "owner" = None →
  get_user_todos u (good ++ bad :: rest) = Raise (KeyError "owner").
Proof.
  unfold get_user_todos, _load_todos. intros Hgood Hbad.
  rewrite get_user_todos_loop_app, Hgood. cbn [mbind result_bind].
  cbn [get_user_todos_loop]. unfold getitem. by rewrite Hbad.
Qed.

Lemma get_user_todos_missing_owner_witness :
  get_user_todos "alice"
    ([to_dict alice_todo] ++ {["title" := "stray"]} :: [to_dict bob_todo])
  = Raise (KeyError "owner").
Proof.
  apply (get_user_todos_missing_owner "alice" [to_dict alice_todo]
           [to_dict bob_todo] {["title" := "stray"]} [alice_todo]).
  - vm_compute. reflexivity.
  - by vm_compute.
Defined.

(** ** Viewing and adding through the CLI *)

Lemma view_entries_prints (i : nat) (todos : list TodoItem) (w : world) :
  view_entries i todos w
  = (Ok tt,
     {| stdin := stdin w; stdout := stdout w ++ listing_lines i todos;
        todos_file := todos_file w |}).
Proof.
  revert i w. induction todos as [|todo rest IH]; intros i w;
    cbn [view_entries listing_lines].
  - unfold io_ret. rewrite app_nil_r. by destruct w.
  - unfold io_bind, print. cbn [stdin stdout todos_file]. rewrite IH.
    cbn [stdin stdout todos_file]. unfold entry_lines.
    rewrite <- !app_assoc. reflexivity.
Qed.

Lemma listing_lines_length (i : nat) (todos : list TodoItem) :
  length (listing_lines i todos) = 5 * length todos.
Proof.
  revert i. induction todos as [|todo rest IH]; intros i; [done|].
  cbn [listing_lines]. rewrite length_app, IH. simpl. lia.
Qed.

(** What [handle_view_todos] does, by the outcome of the listing. *)
Lemma handle_view_todos_cases (u : string) (w : world) :
  match get_user_todos u (todos_file w) with
  | Raise e => handle_view_todos u w = (Raise e, w)
  | Ok [] =>
      handle_view_todos u w
      = (Ok tt,
         {| stdin := stdin w; stdout := stdout w ++ ["You have no todos yet."];
            todos_file := todos_file w |})
  | Ok xs =>
      handle_view_todos u w
      = (Ok tt,
         {| stdin := stdin w;
            stdout := stdout w ++ (nl +:+ "=== YOUR TODOS ===")
                                    :: listing_lines 1 xs;
            todos_file := todos_file w |})
  end.
Proof.
  unfold handle_view_todos, io_bind, todo_manager_get_user_todos.
  destruct (get_user_todos u (todos_file w)) as [[|x xs]|e]; [done| |done].
  unfold print. cbn [stdin stdout todos_file]. rewrite view_entries_prints.
  cbn [stdin stdout todos_file]. by rewrite <- app_assoc.
Qed.

(** X13. What [handle_view_todos] does is fixed by the outcome of the
    listing: an error is passed on with nothing printed; an empty listing
    prints the single line that there are no todos; otherwise the header is
    followed by five lines per item, in the order of the listing and numbered
    from 1.  Standard input and the todos file are never touched. *)
Theorem handle_view_todos_outcome (u : string) (w : world) :
  match get_user_todos u (todos_file w) with
  | Raise e => handle_view_todos u w = (Raise e, w)
  | Ok [] =>
      handle_view_todos u w
      = (Ok tt,
         {| stdin := stdin w; stdout := stdout w ++ ["You have no todos yet."];
            todos_file := todos_file w |})
  | Ok xs =>
      handle_view_todos u w
      = (Ok tt,
         {| stdin := stdin w;
            stdout := stdout w ++ (nl +:+ "=== YOUR TODOS ===")
                                    :: listing_lines 1 xs;
            todos_file := todos_file w |})
  end.
Proof. exact (handle_view_todos_cases u w). Qed.

(** X14. After any sequence of [add_todo] calls on a freshly created todos
    file, [handle_view_todos] shows the logged-in user's items and no others,
    in the order they were added (the store and the handler do no sorting),
    on [1 + 5 * n] lines for [n > 0] items. *)
Theorem handle_view_todos_after_adds (xs : list TodoItem) (u : string)
    (keyboard out : list string) :
  let own := filter (λ x, owner x = u) xs in
  let w := {| stdin := keyboard; stdout := out;
              todos_file := add_todos xs (_ensure_file_exists None) |} in
  fst (handle_view_todos u w) = Ok tt ∧
  stdin (snd (handle_view_todos u w)) = keyboard ∧
  todos_file (snd (handle_view_todos u w)) = todos_file w ∧
  stdout (snd (handle_view_todos u w))
  = out ++ match own with
           | [] => ["You have no todos yet."]
           | _ :: _ => (nl +:+ "=== YOUR TODOS ===") :: listing_lines 1 own
           end ∧
  length (stdout (snd (handle_view_todos u w)))
  = length out + match own with [] => 1 | _ :: _ => 1 + 5 * length own end.
Proof.
  intros own w. pose proof (handle_view_todos_cases u w) as Hview.
  subst w. cbn [todos_file] in Hview. rewrite add_todos_eq in Hview.
  cbn [_ensure_file_exists app] in Hview.
  rewrite get_user_todos_encoded in Hview. fold own in Hview.
  rewrite add_todos_eq. cbn [_ensure_file_exists app].
  destruct own as [|x own']; rewrite Hview; cbn [fst snd stdin stdout todos_file];
    (split_and!; [done..|]); rewrite length_app; cbn [length]; [done|].
  rewrite listing_lines_length. cbn [length]. lia.
Qed.

Section Priorities.

Variable upper : string → string.

(** X15. Given its three lines, [handle_add_todo] stores the priority whose
    tag the upper-cased, stripped third line spells; any other entry is
    answered with the notice and stored as MID.  The stored title and details
    are the stripped first and second lines. *)
Theorem handle_add_todo_priority_default
    (current_user fresh_id now l1 l2 l3 : string) (rest out : list string)
    (file : list (gmap string string)) :
  let run :=
    handle_add_todo upper current_user fresh_id now
      {| stdin := l1 :: l2 :: l3 :: rest; stdout := out; todos_file := file |} in
  let chosen :=
    match Priority_of (upper (strip l3)) with
    | Ok p => (p, [])
    | Raise _ => (MID, ["Invalid priority. Defaulting to MID."])
    end in
  run = (Ok tt,
         {| stdin := rest;
            stdout := out ++ add_prompts ++ chosen.2
                          ++ ["Todo added successfully!"];
            todos_file :=
              file ++ [to_dict (TodoItem_new (strip l1) (strip l2) chosen.1
                                  PENDING current_user fresh_id now)] |}) ∧
  (chosen.2 = [] ↔ upper (strip l3) ∈ priority_tags) ∧
  Priority_value chosen.1 = (if decide (upper (strip l3) ∈ priority_tags)
                             then upper (strip l3) else "MID").
Proof.
  intros run chosen. subst run chosen.
  unfold handle_add_todo, add_prompts, io_bind, input.
  cbn [stdin stdout todos_file tail].
  destruct (Priority_of_cases (upper (strip l3)))
    as [(p & -> & Hp & Hin)|[-> Hout]];
    unfold io_ret, io_bind, print, todo_manager_add_todo;
    cbn [stdin stdout todos_file fst snd]; rewrite add_todo_eq;
    cbn [stdin stdout todos_file fst snd]; rewrite <- !app_assoc; cbn [app].
  - split_and!; [done..|]. by rewrite decide_True.
  - split_and!; [done| |by rewrite decide_False]. split; [done|]. done.
Qed.

End Priorities.

(** ** Logging in and signing up *)

Lemma str_not_true (s : string) : Menu.str_not s = true ↔ s = "".
Proof. by destruct s. Qed.

Lemma logged_in_Some (value : option string) (u : string) :
  Menu.logged_in value = Some u ↔ value = Some u ∧ u ≠ "".
Proof.
  destruct value as [[|c rest]|]; simpl; split; try done.
  - by intros [[= <-] ?].
  - by intros [= <-].
  - by intros [[= <-] _].
  - by intros [? _].
Qed.

(** What [handle_login] leaves: files and item count as they were, input
    only consumed, output only appended; [self.current_user] either as it
    was, or set to the stripped first line after [login] accepted the two
    stripped lines; a normal return has read two lines. *)
Lemma handle_login_frame (s : Menu.session) :
  let r := fst (Menu.handle_login s) in
  let s' := snd (Menu.handle_login s) in
  Menu.users_file s' = Menu.users_file s ∧
  todos_file (Menu.console s') = todos_file (Menu.console s) ∧
  Menu.drawn s' = Menu.drawn s ∧
  stdout (Menu.console s) `prefix_of` stdout (Menu.console s') ∧
  stdin (Menu.console s') `suffix_of` stdin (Menu.console s) ∧
  r ≠ Menu.SystemExit ∧
  (r = Menu.Done tt →
   length (stdin (Menu.console s')) + 2 = length (stdin (Menu.console s))) ∧
  (Menu.current_user s' = Menu.current_user s ∨
   ∃ l1 l2 rest,
     stdin (Menu.console s) = l1 :: l2 :: rest ∧
     r = Menu.Done tt ∧
     Menu.current_user s' = Some (strip l1) ∧
     AuthManager.login (strip l1) (strip l2) (Menu.users_file s) = Ok true).
Proof.
  destruct s as [[[|l1 [|l2 rest]] out file] users cu n];
    unfold Menu.handle_login, Menu.menu_bind, Menu.on_console, input;
    cbn [Menu.console Menu.users_file Menu.current_user Menu.drawn
         stdin stdout todos_file tail Menu.of_result fst snd].
  1, 2: split_and!; first [done | grown | by left].
  unfold Menu.auth_manager_login.
  cbn [Menu.console Menu.users_file Menu.current_user Menu.drawn].
  destruct (AuthManager.login (strip l1) (strip l2) users) as [[|]|e] eqn:Hlogin;
    cbn [Menu.of_result fst snd Menu.set_current_user Menu.on_console print
         Menu.console Menu.users_file Menu.current_user Menu.drawn
         stdin stdout todos_file Menu.menu_bind].
  - split_and!; first [done | grown | right; by exists l1, l2, rest].
  - split_and!; first [done | grown | by left].
  - split_and!; first [done | grown | by left].
Qed.

(** What [handle_signup] leaves: todos file, current user and item count as
    they were; the users file as it was, or with one record appended whose
    name and password are the stripped lines, both non-empty, the name not
    carried by any earlier record. *)
Lemma handle_signup_frame (s : Menu.session) :
  let r := fst (Menu.handle_signup s) in
  let s' := snd (Menu.handle_signup s) in
  Menu.current_user s' = Menu.current_user s ∧
  todos_file (Menu.console s') = todos_file (Menu.console s) ∧
  Menu.drawn s' = Menu.drawn s ∧
  stdout (Menu.console s) `prefix_of` stdout (Menu.console s') ∧
  stdin (Menu.console s') `suffix_of` stdin (Menu.console s) ∧
  r ≠ Menu.SystemExit ∧
  (r = Menu.Done tt →
   length (stdin (Menu.console s')) + 2 = length (stdin (Menu.console s))) ∧
  (Menu.users_file s' = Menu.users_file s ∨
   ∃ l1 l2 rest,
     stdin (Menu.console s) = l1 :: l2 :: rest ∧
     r = Menu.Done tt ∧
     strip l1 ≠ "" ∧ strip l2 ≠ "" ∧
     (strip l1 ∉ usernames (Menu.users_file s)) ∧
     Menu.users_file s'
     = Menu.users_file s ++ [AuthManager.user_record (strip l1) (strip l2)]).
Proof.
  destruct s as [[[|l1 [|l2 rest]] out file] users cu n];
    unfold Menu.handle_signup, Menu.menu_bind, Menu.on_console, input;
    cbn [Menu.console Menu.users_file Menu.current_user Menu.drawn
         stdin stdout todos_file tail Menu.of_result fst snd].
  1, 2: split_and!; first [done | grown | by left].
  destruct (Menu.str_not (strip l1)) eqn:H1;
    [|destruct (Menu.str_not (strip l2)) eqn:H2];
    cbn [orb print Menu.of_result fst snd Menu.console Menu.users_file
         Menu.current_user Menu.drawn stdin stdout todos_file].
  1, 2: split_and!; first [done | grown | by left].
  unfold Menu.auth_manager_register.
  cbn [Menu.console Menu.users_file Menu.current_user Menu.drawn].
  assert (strip l1 ≠ "") as Hn1 by (intros Heq%str_not_true; congruence).
  assert (strip l2 ≠ "") as Hn2 by (intros Heq%str_not_true; congruence).
  destruct (register_outcome (strip l1) (strip l2) users)
    as [[Hscan Hreg]|(Hscan & Hfile & Hres)].
  - rewrite Hreg.
    cbn [Menu.of_result fst snd print Menu.console Menu.users_file
         Menu.current_user Menu.drawn stdin stdout todos_file].
    split_and!; first [done | grown | right; exists l1, l2, rest].
    split_and!; try done. by apply any_username_not_in.
  - destruct (AuthManager.register (strip l1) (strip l2) users)
      as [[[|]|e] file'] eqn:Hreg; cbn [fst snd] in Hfile, Hres; subst file';
      [done| |];
      cbn [Menu.of_result fst snd print Menu.console Menu.users_file
           Menu.current_user Menu.drawn stdin stdout todos_file];
      (split_and!; first [done | grown | by left]).
Qed.

(** ** Steps of a session *)

Lemma login_app_true (u p : string) (users more : list (gmap string string)) :
  AuthManager.login u p users = Ok true →
  AuthManager.login u p (users ++ more) = Ok true.
Proof.
  unfold AuthManager.login, AuthManager._load_users. intros H.
  by rewrite any_credentials_app, H.
Qed.

Lemma todo_of_user_app (users more : list (gmap string string))
    (r : gmap string string) :
  todo_of_user users r → todo_of_user (users ++ more) r.
Proof.
  intros (x & p & ? & ? & ? & ? & Hlogin). exists x, p.
  split_and!; try done. by apply login_app_true.
Qed.

Lemma authenticated_app (s s' : Menu.session) (more : list (gmap string string)) :
  Menu.users_file s' = Menu.users_file s ++ more →
  Menu.current_user s' = Menu.current_user s →
  authenticated s → authenticated s'.
Proof.
  intros Hu Hc Hs u Hlog. rewrite Hc in Hlog. destruct (Hs u Hlog) as [p Hp].
  exists p. rewrite Hu. by apply login_app_true.
Qed.

Lemma session_step_refl (s : Menu.session) : session_step s s.
Proof.
  split_and!; try done.
  - exists []. by rewrite app_nil_r.
  - exists []. by rewrite app_nil_r.
Qed.

Lemma session_step_trans (s1 s2 s3 : Menu.session) :
  session_step s1 s2 → session_step s2 s3 → session_step s1 s3.
Proof.
  intros ((n1 & Hu1 & Hn1) & (a1 & Ht1 & Ha1) & Ho1 & Hi1 & Hc1)
         ((n2 & Hu2 & Hn2) & (a2 & Ht2 & Ha2) & Ho2 & Hi2 & Hc2).
  split_and!.
  - exists (n1 ++ n2). rewrite Hu2, Hu1, app_assoc. split; [done|].
    by apply Forall_app.
  - exists (a1 ++ a2). rewrite Ht2, Ht1, app_assoc. split; [done|].
    intros Hauth. apply Forall_app. split; [|by apply Ha2, Hc1].
    rewrite Hu2. eapply Forall_impl; [by apply Ha1|].
    intros r. apply todo_of_user_app.
  - by etrans.
  - by etrans.
  - intros ?. by apply Hc2, Hc1.
Qed.

(** A move that touches the console only. *)
Lemma session_step_console (s s' : Menu.session) :
  Menu.users_file s' = Menu.users_file s →
  Menu.current_user s' = Menu.current_user s →
  todos_file (Menu.console s') = todos_file (Menu.console s) →
  stdout (Menu.console s) `prefix_of` stdout (Menu.console s') →
  stdin (Menu.console s') `suffix_of` stdin (Menu.console s) →
  session_step s s'.
Proof.
  intros Hu Hc Ht Ho Hi. split_and!; try done.
  - exists []. by rewrite app_nil_r.
  - exists []. by rewrite app_nil_r.
  - apply (authenticated_app s s' []); [by rewrite app_nil_r|done].
Qed.

Lemma session_step_login (s : Menu.session) :
  session_step s (snd (Menu.handle_login s)).
Proof.
  destruct (handle_login_frame s) as (Hu & Ht & _ & Ho & Hi & _ & _ & Hc).
  destruct Hc as [Hc|(l1 & l2 & rest & _ & _ & Hc & Hlogin)].
  - by apply session_step_console.
  - split_and!; try done.
    + exists []. by rewrite app_nil_r.
    + exists []. by rewrite app_nil_r.
    + intros _ u [Hcu _]%logged_in_Some. rewrite Hc in Hcu.
      injection Hcu as <-. exists (strip l2). by rewrite Hu.
Qed.

Lemma session_step_signup (s : Menu.session) :
  session_step s (snd (Menu.handle_signup s)).
Proof.
  destruct (handle_signup_frame s) as (Hc & Ht & _ & Ho & Hi & _ & _ & Hu).
  destruct Hu as [Hu|(l1 & l2 & rest & _ & _ & Hn1 & Hn2 & _ & Hu)].
  - by apply session_step_console.
  - split_and!; try done.
    + eexists. split; [done|]. constructor; [|constructor].
      by exists (strip l1), (strip l2).
    + exists []. by rewrite app_nil_r.
    + by apply (authenticated_app s _ _ Hu).
Qed.

Section RunSteps.

Variable upper : string → string.
Variable uuid4 : nat → string.
Variable now : nat → string.

(** What [handle_add_todo] leaves: output only appended, input only consumed,
    and the todos file as it was or with one record appended, the encoding of
    a PENDING item without due date owned by the current user; a normal
    return has read three lines. *)
Lemma handle_add_todo_frame (u fresh_id clock : string) (w : world) :
  let r := fst (handle_add_todo upper u fresh_id clock w) in
  let w' := snd (handle_add_todo upper u fresh_id clock w) in
  stdout w `prefix_of` stdout w' ∧
  stdin w' `suffix_of` stdin w ∧
  (r = Ok tt → length (stdin w') + 3 = length (stdin w)) ∧
  (todos_file w' = todos_file w ∨
   ∃ x, todos_file w' = todos_file w ++ [to_dict x] ∧ owner x = u ∧
        status x = PENDING ∧ due_date x = None).
Proof.
  destruct w as [[|l1 [|l2 [|l3 rest]]] out file].
  4: { destruct (handle_add_todo_three_lines upper u fresh_id clock
                   l1 l2 l3 rest out file) as (notice & _ & ->).
       cbn [fst snd stdin stdout todos_file].
       split_and!; first [grown | right; by eexists]. }
  all: unfold handle_add_todo, io_bind, input;
    cbn [stdin stdout todos_file tail fst snd];
    split_and!; first [done | grown | by left].
Qed.

Lemma session_step_add (u : string) (s : Menu.session) :
  Menu.logged_in (Menu.current_user s) = Some u →
  session_step s (snd (Menu.add_todo_turn upper uuid4 now u s)) ∧
  Menu.current_user (snd (Menu.add_todo_turn upper uuid4 now u s))
  = Menu.current_user s ∧
  (fst (Menu.add_todo_turn upper uuid4 now u s) = Menu.Done tt →
   length (stdin (Menu.console (snd (Menu.add_todo_turn upper uuid4 now u s))))
   < length (stdin (Menu.console s))).
Proof.
  intros Hlog. unfold Menu.add_todo_turn, Menu.on_console.
  pose proof (handle_add_todo_frame u (uuid4 (Menu.drawn s))
                (now (Menu.drawn s)) (Menu.console s)) as (Ho & Hi & Hlen & Ht).
  destruct (handle_add_todo upper u _ _ (Menu.console s)) as [[[]|e] w'];
    cbn [fst snd Menu.of_result Menu.console Menu.users_file
         Menu.current_user Menu.drawn] in *.
  all: split_and!; [|done|first [done | intros _; specialize (Hlen eq_refl); lia]].
  all: destruct Ht as [Ht|(x & Ht & Hx & Hst & Hdue)];
    [by apply session_step_console|].
  all: split_and!; try done;
    [exists []; by rewrite app_nil_r|].
  all: eexists; split; [done|]; intros Hauth; constructor; [|constructor].
  all: destruct (Hauth u Hlog) as [p Hp]; exists x, p; subst u.
  all: split_and!; try done; by apply logged_in_Some in Hlog as [_ ?].
Qed.


Lemma session_step_view (u : string) (s : Menu.session) :
  session_step s (snd (Menu.on_console (handle_view_todos u) s)) ∧
  Menu.current_user (snd (Menu.on_console (handle_view_todos u) s))
  = Menu.current_user s ∧
  stdin (Menu.console (snd (Menu.on_console (handle_view_todos u) s)))
  = stdin (Menu.console s).
Proof.
  unfold Menu.on_console.
  pose proof (handle_view_todos_cases u (Menu.console s)) as Hview.
  destruct (get_user_todos u (todos_file (Menu.console s))) as [[|x xs]|e];
    rewrite Hview; cbn [fst snd Menu.console Menu.current_user stdin];
    (split_and!; [|done..]); apply session_step_console; first [done | grown].
Qed.

(** One turn of the pre-login menu is a session step, and a turn that
    returns normally has consumed input. *)
Lemma pre_login_turn_step (s : Menu.session) :
  session_step s (snd (Menu.pre_login_turn s)) ∧
  (fst (Menu.pre_login_turn s) = Menu.Done tt →
   length (stdin (Menu.console (snd (Menu.pre_login_turn s))))
   < length (stdin (Menu.console s))).
Proof.
  destruct s as [[[|l rest] out file] users cu n];
    unfold Menu.pre_login_turn, Menu.menu_bind, Menu.on_console, print, input;
    cbn [Menu.console Menu.users_file Menu.current_user Menu.drawn
         stdin stdout todos_file tail Menu.of_result fst snd].
  { split; [|done]. apply session_step_console; first [done | grown]. }
  destruct (String.eqb (strip l) "1");
    [|destruct (String.eqb (strip l) "2");
      [|destruct (String.eqb (strip l) "3")]].
  - match goal with
    | |- context [Menu.handle_login ?s1] =>
        pose proof (session_step_login s1) as Hstep;
        pose proof (handle_login_frame s1) as (_ & _ & _ & _ & _ & _ & Hlen & _);
        destruct (Menu.handle_login s1) as [r s']
    end.
    cbn [fst snd Menu.console stdin] in *. split.
    + eapply session_step_trans; [|exact Hstep].
      apply session_step_console; first [done | grown].
    + intros Hr. specialize (Hlen Hr). simpl. lia.
  - match goal with
    | |- context [Menu.handle_signup ?s1] =>
        pose proof (session_step_signup s1) as Hstep;
        pose proof (handle_signup_frame s1) as (_ & _ & _ & _ & _ & _ & Hlen & _);
        destruct (Menu.handle_signup s1) as [r s']
    end.
    cbn [fst snd Menu.console stdin] in *. split.
    + eapply session_step_trans; [|exact Hstep].
      apply session_step_console; first [done | grown].
    + intros Hr. specialize (Hlen Hr). simpl. lia.
  - cbn [fst snd Menu.exit Menu.console Menu.users_file Menu.current_user
         Menu.drawn stdin stdout todos_file Menu.of_result].
    split; [|done]. apply session_step_console; first [done | grown].
  - cbn [fst snd Menu.console Menu.users_file Menu.current_user
         Menu.drawn stdin stdout todos_file Menu.of_result].
    split; [|intros _; simpl; lia].
    apply session_step_console; first [done | grown].
Qed.

(** The pre-login menu, when it ends, has made a session step; it returns
    normally only with somebody logged in. *)
Lemma show_pre_login_menu_step (fuel : nat) (s s' : Menu.session)
    (r : Menu.outcome unit) :
  Menu.show_pre_login_menu fuel s = Some (r, s') →
  session_step s s' ∧
  (r = Menu.Done tt → ∃ u, Menu.logged_in (Menu.current_user s') = Some u) ∧
  length (stdin (Menu.console s')) ≤ length (stdin (Menu.console s)).
Proof.
  revert s. induction fuel as [|fuel IH]; intros s;
    cbn [Menu.show_pre_login_menu];
    destruct (Menu.logged_in (Menu.current_user s)) as [u|] eqn:Hlog.
  1, 3: intros [= <- <-]; split_and!;
    [apply session_step_refl|by eauto|done].
  - done.
  - destruct (pre_login_turn_step s) as [Hstep Hlen].
    destruct (Menu.pre_login_turn s) as [[[]|e|] s1]; cbn [fst snd] in *.
    + intros Hrun. destruct (IH _ Hrun) as (Hstep' & Hdone & Hlen').
      split_and!; [by eapply session_step_trans|done|].
      specialize (Hlen eq_refl). lia.
    + intros [= <- <-]. split_and!; [done|done|].
      destruct Hstep as (_ & _ & _ & Hsuf & _). by apply suffix_length.
    + intros [= <- <-]. split_and!; [done|done|].
      destruct Hstep as (_ & _ & _ & Hsuf & _). by apply suffix_length.
Qed.

(** On a finite input the pre-login menu ends within as many turns as there
    are lines, plus one. *)
Lemma show_pre_login_menu_ends (fuel : nat) (s : Menu.session) :
  length (stdin (Menu.console s)) < fuel →
  is_Some (Menu.show_pre_login_menu fuel s).
Proof.
  revert s. induction fuel as [|fuel IH]; intros s Hlen; [lia|].
  cbn [Menu.show_pre_login_menu].
  destruct (Menu.logged_in (Menu.current_user s)); [by eauto|].
  destruct (pre_login_turn_step s) as [_ Hshort].
  destruct (Menu.pre_login_turn s) as [[[]|e|] s1]; cbn [fst snd] in *;
    [|by eauto..].
  apply IH. specialize (Hshort eq_refl). lia.
Qed.

(** Logging out, or any move that ends with nobody logged in. *)
Lemma session_step_logout (s s' : Menu.session) :
  Menu.users_file s' = Menu.users_file s →
  Menu.current_user s' = None →
  todos_file (Menu.console s') = todos_file (Menu.console s) →
  stdout (Menu.console s) `prefix_of` stdout (Menu.console s') →
  stdin (Menu.console s') `suffix_of` stdin (Menu.console s) →
  session_step s s'.
Proof.
  intros Hu Hc Ht Ho Hi. split_and!; try done.
  - exists []. by rewrite app_nil_r.
  - exists []. by rewrite app_nil_r.
  - intros _ u. by rewrite Hc.
Qed.

(** One turn of the main menu under the logged-in user [u] is a session
    step; a turn that returns normally has consumed input and leaves
    somebody logged in. *)
Lemma main_turn_step (fuel : nat) (u : string) (s s' : Menu.session)
    (r : Menu.outcome unit) :
  Menu.logged_in (Menu.current_user s) = Some u →
  Menu.main_turn upper uuid4 now fuel u s = Some (r, s') →
  session_step s s' ∧
  (r = Menu.Done tt →
   (∃ u', Menu.logged_in (Menu.current_user s') = Some u') ∧
   length (stdin (Menu.console s')) < length (stdin (Menu.console s))).
Proof.
  intros Hlog.
  destruct s as [[[|l rest] out file] users cu n];
    unfold Menu.main_turn, Menu.show_main_menu, Menu.menu_bind,
      Menu.on_console at 1 2 3 4 5 6, print at 1 2 3 4 5, input;
    cbn [Menu.console Menu.users_file Menu.current_user Menu.drawn
         stdin stdout todos_file tail Menu.of_result fst snd] in *.
  { intros [= <- <-]. split; [|done].
    apply session_step_console; first [done | grown]. }
  destruct (String.eqb (strip l) "1");
    [|destruct (String.eqb (strip l) "2");
      [|destruct (String.eqb (strip l) "3");
        [|destruct (String.eqb (strip l) "4")]]].
  - match goal with
    | |- Some (Menu.add_todo_turn _ _ _ _ ?s1) = _ → _ =>
        destruct (session_step_add u s1 Hlog) as (Hstep & Hcu & Hlen);
        destruct (Menu.add_todo_turn upper uuid4 now u s1) as [r1 s1']
    end.
    cbn [fst snd Menu.console Menu.current_user stdin] in *.
    intros [= <- <-]. split.
    + eapply session_step_trans; [|exact Hstep].
      apply session_step_console; first [done | grown].
    + intros Hr. split; [rewrite Hcu; by eauto|].
      specialize (Hlen Hr). simpl. lia.
  - match goal with
    | |- Some (Menu.on_console _ ?s1) = _ → _ =>
        destruct (session_step_view u s1) as (Hstep & Hcu & Hin);
        destruct (Menu.on_console (handle_view_todos u) s1) as [r1 s1']
    end.
    cbn [fst snd Menu.console Menu.current_user stdin] in *.
    intros [= <- <-]. split.
    + eapply session_step_trans; [|exact Hstep].
      apply session_step_console; first [done | grown].
    + intros _. split; [rewrite Hcu; by eauto|]. rewrite Hin. simpl. lia.
  - unfold Menu.set_current_user, Menu.on_console, print.
    cbn [Menu.console Menu.users_file Menu.current_user Menu.drawn
         stdin stdout todos_file Menu.of_result fst snd].
    intros (Hstep & Hdone & Hlen)%show_pre_login_menu_step.
    cbn [Menu.console stdin] in Hlen. split.
    + eapply session_step_trans; [|exact Hstep].
      apply session_step_logout; first [done | grown].
    + intros Hr. split; [by apply Hdone|]. simpl. lia.
  - unfold Menu.on_console, print, Menu.exit.
    cbn [Menu.console Menu.users_file Menu.current_user Menu.drawn
         stdin stdout todos_file Menu.of_result fst snd].
    intros [= <- <-]. split; [|done].
    apply session_step_console; first [done | grown].
  - unfold Menu.on_console, print.
    cbn [Menu.console Menu.users_file Menu.current_user Menu.drawn
         stdin stdout todos_file Menu.of_result fst snd].
    intros [= <- <-]. split.
    + apply session_step_console; first [done | grown].
    + intros _. split; [by eauto|]. simpl. lia.
Qed.

Lemma main_turn_ends (fuel : nat) (u : string) (s : Menu.session) :
  length (stdin (Menu.console s)) ≤ fuel →
  is_Some (Menu.main_turn upper uuid4 now fuel u s).
Proof.
  destruct s as [[[|l rest] out file] users cu n];
    unfold Menu.main_turn, Menu.show_main_menu, Menu.menu_bind,
      Menu.on_console at 1 2 3 4 5 6, print at 1 2 3 4 5, input;
    cbn [Menu.console Menu.users_file Menu.current_user Menu.drawn
         stdin stdout todos_file tail Menu.of_result fst snd length];
    intros Hlen; [by eauto|].
  destruct (String.eqb (strip l) "1"); [by eauto|].
  destruct (String.eqb (strip l) "2"); [by eauto|].
  destruct (String.eqb (strip l) "3"); [|by destruct (String.eqb _ _); eauto].
  unfold Menu.set_current_user, Menu.on_console, print.
  cbn [Menu.console Menu.users_file Menu.current_user Menu.drawn
       stdin stdout todos_file Menu.of_result fst snd].
  apply show_pre_login_menu_ends. cbn [Menu.console stdin]. lia.
Qed.

(** The main loop, when it ends, has made a session step; entered with
    somebody logged in, it does not return normally. *)
Lemma main_loop_step (fuel : nat) (s s' : Menu.session)
    (r : Menu.outcome unit) :
  Menu.main_loop upper uuid4 now fuel s = Some (r, s') →
  session_step s s' ∧
  (is_Some (Menu.logged_in (Menu.current_user s)) → r ≠ Menu.Done tt).
Proof.
  revert s. induction fuel as [|fuel IH]; intros s; cbn [Menu.main_loop];
    destruct (Menu.logged_in (Menu.current_user s)) as [u|] eqn:Hlog.
  1: done.
  1, 3: intros [= <- <-]; split; [apply session_step_refl|by intros [? ?]].
  destruct (Menu.main_turn upper uuid4 now fuel u s) as [[r1 s1]|] eqn:Hturn;
    [|done].
  destruct (main_turn_step fuel u s s1 r1 Hlog Hturn) as [Hstep Hdone].
  destruct r1 as [[]|e|].
  - intros Hrun. destruct (IH _ Hrun) as [Hstep' Hnot].
    split; [by eapply session_step_trans|]. intros _.
    destruct (Hdone eq_refl) as [[u' Hu'] _]. apply Hnot. rewrite Hu'. by eauto.
  - intros [= <- <-]. by split.
  - intros [= <- <-]. by split.
Qed.

Lemma main_loop_ends (fuel : nat) (s : Menu.session) :
  length (stdin (Menu.console s)) < fuel →
  is_Some (Menu.main_loop upper uuid4 now fuel s).
Proof.
  revert s. induction fuel as [|fuel IH]; intros s Hlen; [lia|].
  cbn [Menu.main_loop].
  destruct (Menu.logged_in (Menu.current_user s)) as [u|] eqn:Hlog;
    [|by eauto].
  destruct (main_turn_ends fuel u s) as [[r1 s1] Hturn]; [lia|].
  rewrite Hturn. destruct (main_turn_step fuel u s s1 r1 Hlog Hturn) as [_ Hdone].
  destruct r1 as [[]|e|]; [|by eauto..].
  apply IH. destruct (Hdone eq_refl) as [_ ?]. lia.
Qed.

(** [run], when it ends, has made a session step and has not returned
    normally. *)
Lemma run_step (fuel : nat) (s s' : Menu.session) (r : Menu.outcome unit) :
  Menu.run upper uuid4 now fuel s = Some (r, s') →
  session_step s s' ∧ r ≠ Menu.Done tt.
Proof.
  unfold Menu.run.
  destruct (Menu.show_pre_login_menu fuel s) as [[r1 s1]|] eqn:Hpre; [|done].
  destruct (show_pre_login_menu_step fuel s s1 r1 Hpre) as (Hstep & Hdone & _).
  destruct r1 as [[]|e|].
  - intros Hmain. destruct (main_loop_step fuel s1 s' r Hmain) as [Hstep' Hnot].
    split; [by eapply session_step_trans|].
    apply Hnot. destruct (Hdone eq_refl) as [u ->]. by eauto.
  - intros [= <- <-]. by split.
  - intros [= <- <-]. by split.
Qed.

Lemma run_ends (fuel : nat) (s : Menu.session) :
  length (stdin (Menu.console s)) < fuel →
  is_Some (Menu.run upper uuid4 now fuel s).
Proof.
  intros Hlen. unfold Menu.run.
  destruct (show_pre_login_menu_ends fuel s Hlen) as [[r1 s1] Hpre].
  rewrite Hpre.
  destruct (show_pre_login_menu_step fuel s s1 r1 Hpre) as (_ & _ & Hlen').
  destruct r1 as [[]|e|]; [|by eauto..].
  apply main_loop_ends. lia.
Qed.

(** More fuel does not change how a loop ends. *)
Lemma show_pre_login_menu_fuel (fuel fuel' : nat) (s : Menu.session)
    (end_ : Menu.outcome unit * Menu.session) :
  Menu.show_pre_login_menu fuel s = Some end_ →
  fuel ≤ fuel' →
  Menu.show_pre_login_menu fuel' s = Some end_.
Proof.
  revert fuel' s. induction fuel as [|fuel IH]; intros fuel' s Hrun Hle.
  - cbn [Menu.show_pre_login_menu] in Hrun.
    destruct (Menu.logged_in (Menu.current_user s)) eqn:Hlog; [|done].
    destruct fuel'; cbn [Menu.show_pre_login_menu]; by rewrite Hlog.
  - destruct fuel' as [|fuel']; [lia|].
    cbn [Menu.show_pre_login_menu] in *.
    destruct (Menu.logged_in (Menu.current_user s)); [done|].
    destruct (Menu.pre_login_turn s) as [[[]|e|] s1]; [|done..].
    apply IH; [done|lia].
Qed.

Lemma main_turn_fuel (fuel fuel' : nat) (u : string) (s : Menu.session)
    (end_ : Menu.outcome unit * Menu.session) :
  Menu.main_turn upper uuid4 now fuel u s = Some end_ →
  fuel ≤ fuel' →
  Menu.main_turn upper uuid4 now fuel' u s = Some end_.
Proof.
  unfold Menu.main_turn. intros Hrun Hle.
  destruct (Menu.menu_bind _ _ s) as [[line|e|] s1]; [|done..].
  destruct (String.eqb (strip line) "1"); [done|].
  destruct (String.eqb (strip line) "2"); [done|].
  destruct (String.eqb (strip line) "3"); [|done].
  destruct (Menu.menu_bind _ _ s1) as [[[]|e|] s2]; [|done..].
  by eapply show_pre_login_menu_fuel.
Qed.

Lemma main_loop_fuel (fuel fuel' : nat) (s : Menu.session)
    (end_ : Menu.outcome unit * Menu.session) :
  Menu.main_loop upper uuid4 now fuel s = Some end_ →
  fuel ≤ fuel' →
  Menu.main_loop upper uuid4 now fuel' s = Some end_.
Proof.
  revert fuel' s. induction fuel as [|fuel IH]; intros fuel' s Hrun Hle.
  - cbn [Menu.main_loop] in Hrun.
    destruct (Menu.logged_in (Menu.current_user s)) eqn:Hlog; [done|].
    destruct fuel'; cbn [Menu.main_loop]; by rewrite Hlog.
  - destruct fuel' as [|fuel']; [lia|]. cbn [Menu.main_loop] in *.
    destruct (Menu.logged_in (Menu.current_user s)) as [u|]; [|done].
    destruct (Menu.main_turn upper uuid4 now fuel u s) as [[r1 s1]|] eqn:Hturn;
      [|done].
    rewrite (main_turn_fuel fuel fuel' u s (r1, s1) Hturn) by lia.
    destruct r1 as [[]|e|]; [|done..]. apply IH; [done|lia].
Qed.

Lemma run_fuel (fuel fuel' : nat) (s : Menu.session)
    (end_ : Menu.outcome unit * Menu.session) :
  Menu.run upper uuid4 now fuel s = Some end_ →
  fuel ≤ fuel' →
  Menu.run upper uuid4 now fuel' s = Some end_.
Proof.
  unfold Menu.run. intros Hrun Hle.
  destruct (Menu.show_pre_login_menu fuel s) as [[r1 s1]|] eqn:Hpre; [|done].
  rewrite (show_pre_login_menu_fuel fuel fuel' s (r1, s1) Hpre) by done.
  destruct r1 as [[]|e|]; [|done..]. by eapply main_loop_fuel.
Qed.

End RunSteps.

(** ** The handlers and the two loops *)

(** X16. [handle_login] writes to neither file; it sets
    [self.current_user] only to the stripped first line, and only after
    [login] accepted the two stripped lines on the users file; in every other
    case (input running out, an exception, rejected credentials) the current
    user is who it was. *)
Theorem handle_login_sets_accepted_user_only (s : Menu.session) :
  let r := fst (Menu.handle_login s) in
  let s' := snd (Menu.handle_login s) in
  Menu.users_file s' = Menu.users_file s ∧
  todos_file (Menu.console s') = todos_file (Menu.console s) ∧
  Menu.drawn s' = Menu.drawn s ∧
  stdout (Menu.console s) `prefix_of` stdout (Menu.console s') ∧
  stdin (Menu.console s') `suffix_of` stdin (Menu.console s) ∧
  r ≠ Menu.SystemExit ∧
  (r = Menu.Done tt →
   length (stdin (Menu.console s')) + 2 = length (stdin (Menu.console s))) ∧
  (Menu.current_user s' = Menu.current_user s ∨
   ∃ l1 l2 rest,
     stdin (Menu.console s) = l1 :: l2 :: rest ∧
     r = Menu.Done tt ∧
     Menu.current_user s' = Some (strip l1) ∧
     AuthManager.login (strip l1) (strip l2) (Menu.users_file s) = Ok true).
Proof. exact (handle_login_frame s). Qed.

(** X17. [handle_signup] logs nobody in and leaves the todos file alone; the
    users file is as it was or has gained one record, whose name and password
    are the stripped lines, both non-empty, under a name no earlier record
    carries. *)
Theorem handle_signup_registers_nonempty_only (s : Menu.session) :
  let r := fst (Menu.handle_signup s) in
  let s' := snd (Menu.handle_signup s) in
  Menu.current_user s' = Menu.current_user s ∧
  todos_file (Menu.console s') = todos_file (Menu.console s) ∧
  Menu.drawn s' = Menu.drawn s ∧
  stdout (Menu.console s) `prefix_of` stdout (Menu.console s') ∧
  stdin (Menu.console s') `suffix_of` stdin (Menu.console s) ∧
  r ≠ Menu.SystemExit ∧
  (r = Menu.Done tt →
   length (stdin (Menu.console s')) + 2 = length (stdin (Menu.console s))) ∧
  (Menu.users_file s' = Menu.users_file s ∨
   ∃ l1 l2 rest,
     stdin (Menu.console s) = l1 :: l2 :: rest ∧
     r = Menu.Done tt ∧
     strip l1 ≠ "" ∧ strip l2 ≠ "" ∧
     (strip l1 ∉ usernames (Menu.users_file s)) ∧
     Menu.users_file s'
     = Menu.users_file s ++ [AuthManager.user_record (strip l1) (strip l2)]).
Proof. exact (handle_signup_frame s). Qed.

(** X18. An empty name or an empty password (after stripping) is turned
    away by [handle_signup]: the message is printed, the handler returns
    normally and [register] is not run, so the users file is untouched. *)
Theorem handle_signup_rejects_empty (s : Menu.session)
    (l1 l2 : string) (rest : list string) :
  stdin (Menu.console s) = l1 :: l2 :: rest →
  strip l1 = "" ∨ strip l2 = "" →
  Menu.handle_signup s
  = (Menu.Done tt,
     {| Menu.console :=
          {| stdin := rest;
             stdout := stdout (Menu.console s)
                       ++ ["Enter a new username: "; "Enter a password: ";
                           "Username and password cannot be empty."];
             todos_file := todos_file (Menu.console s) |};
        Menu.users_file := Menu.users_file s;
        Menu.current_user := Menu.current_user s;
        Menu.drawn := Menu.drawn s |}).
Proof.
  destruct s as [[keyboard out file] users cu n]. cbn [Menu.console stdin].
  intros -> Hempty.
  unfold Menu.handle_signup, Menu.menu_bind, Menu.on_console, input.
  cbn [Menu.console Menu.users_file Menu.current_user Menu.drawn
       stdin stdout todos_file tail Menu.of_result fst snd].
  assert (Menu.str_not (strip l1) || Menu.str_not (strip l2) = true) as ->.
  { destruct Hempty as [->| ->]; [done|]. apply orb_true_r. }
  unfold print.
  cbn [Menu.console Menu.users_file Menu.current_user Menu.drawn
       stdin stdout todos_file Menu.of_result fst snd].
  by rewrite <- !app_assoc.
Qed.

Lemma handle_signup_rejects_empty_witness :
  Menu.users_file
    (snd (Menu.handle_signup (Menu.App_init None None ["  "; "s3cret"])))
  = [].
Proof.
  rewrite (handle_signup_rejects_empty
             (Menu.App_init None None ["  "; "s3cret"]) "  " "s3cret" []).
  - reflexivity.
  - reflexivity.
  - left. reflexivity.
Defined.

(** X19. Signing up under a free name and then typing the same two lines at
    the login prompts logs that name in: [handle_signup] appends the record
    without logging in, and [handle_login] then sets the current user. *)
Theorem signup_then_login (s : Menu.session) (l1 l2 : string)
    (rest : list string) :
  stdin (Menu.console s) = l1 :: l2 :: l1 :: l2 :: rest →
  strip l1 ≠ "" → strip l2 ≠ "" →
  Forall (λ r : gmap string string,
            ∃ n, r !! "username" = Some n ∧ n ≠ strip l1) (Menu.users_file s) →
  let s1 := snd (Menu.handle_signup s) in
  let s2 := snd (Menu.handle_login s1) in
  fst (Menu.handle_signup s) = Menu.Done tt ∧
  Menu.current_user s1 = Menu.current_user s ∧
  fst (Menu.handle_login s1) = Menu.Done tt ∧
  Menu.current_user s2 = Some (strip l1) ∧
  Menu.users_file s2
  = Menu.users_file s ++ [AuthManager.user_record (strip l1) (strip l2)] ∧
  stdin (Menu.console s2) = rest.
Proof.
  destruct s as [[keyboard out file] users cu n].
  cbn [Menu.console Menu.users_file stdin]. intros -> Hn1 Hn2 Hfresh.
  assert (Menu.str_not (strip l1) = false) as Hs1 by by destruct (strip l1).
  assert (Menu.str_not (strip l2) = false) as Hs2 by by destruct (strip l2).
  pose proof Hfresh as Hscan%any_username_false.
  destruct (register_outcome (strip l1) (strip l2) users) as [[_ Hreg]|[? _]];
    [|done].
  assert (AuthManager.login (strip l1) (strip l2)
            (users ++ [AuthManager.user_record (strip l1) (strip l2)])
          = Ok true) as Hlogin.
  { unfold AuthManager.login, AuthManager._load_users.
    rewrite any_credentials_app, any_credentials_other_names by done.
    rewrite any_credentials_user_record. by rewrite bool_decide_eq_true_2. }
  assert (Menu.handle_signup
            {| Menu.console := {| stdin := l1 :: l2 :: l1 :: l2 :: rest;
                                  stdout := out; todos_file := file |};
               Menu.users_file := users; Menu.current_user := cu;
               Menu.drawn := n |}
          = (Menu.Done tt,
             {| Menu.console :=
                  {| stdin := l1 :: l2 :: rest;
                     stdout := ((out ++ ["Enter a new username: "])
                                ++ ["Enter a password: "])
                               ++ ["Account created successfully for "
                                   +:+ strip l1 +:+ "!"];
                     todos_file := file |};
                Menu.users_file :=
                  users ++ [AuthManager.user_record (strip l1) (strip l2)];
                Menu.current_user := cu; Menu.drawn := n |})) as Hsignup.
  { unfold Menu.handle_signup, Menu.menu_bind, Menu.on_console, input.
    cbn [Menu.console Menu.users_file Menu.current_user Menu.drawn
         stdin stdout todos_file tail Menu.of_result fst snd].
    rewrite Hs1, Hs2. cbn [orb]. unfold Menu.auth_manager_register.
    cbn [Menu.console Menu.users_file Menu.current_user Menu.drawn].
    rewrite Hreg. reflexivity. }
  rewrite Hsignup. cbn [fst snd Menu.current_user].
  unfold Menu.handle_login, Menu.menu_bind, Menu.on_console, input.
  cbn [Menu.console Menu.users_file Menu.current_user Menu.drawn
       stdin stdout todos_file tail Menu.of_result fst snd].
  unfold Menu.auth_manager_login.
  cbn [Menu.console Menu.users_file Menu.current_user Menu.drawn].
  rewrite Hlogin. done.
Qed.

Lemma signup_then_login_witness :
  Menu.current_user
    (snd (Menu.handle_login
            (snd (Menu.handle_signup
                    (Menu.App_init None None
                       [" alice"; "s3cret "; " alice"; "s3cret "])))))
  = Some "alice".
Proof.
  apply (signup_then_login
           (Menu.App_init None None [" alice"; "s3cret "; " alice"; "s3cret "])
           " alice" "s3cret " []).
  - reflexivity.
  - by vm_compute.
  - by vm_compute.
  - constructor.
Defined.

Section Loops.

Variable upper : string → string.
Variable uuid4 : nat → string.
Variable now : nat → string.

(** X20. On a finite input the pre-login menu ends, the same way on any
    fuel above the number of lines left, and it returns normally only with a
    non-empty name in [self.current_user]; started with nobody logged in,
    that name is one the users file accepts with some password.  Otherwise
    it ends with [exit()] or an exception. *)
Theorem show_pre_login_menu_gate (fuel : nat) (s : Menu.session) :
  length (stdin (Menu.console s)) < fuel →
  ∃ r s',
    (∀ fuel', fuel ≤ fuel' →
       Menu.show_pre_login_menu fuel' s = Some (r, s')) ∧
    (r = Menu.Done tt →
     ∃ u, Menu.current_user s' = Some u ∧ u ≠ "" ∧
          (Menu.current_user s = None →
           ∃ p, AuthManager.login u p (Menu.users_file s') = Ok true)).
Proof.
  intros Hlen. destruct (show_pre_login_menu_ends fuel s Hlen) as [[r s'] Hrun].
  exists r, s'. split; [intros fuel' Hle; by eapply show_pre_login_menu_fuel|].
  intros Hr.
  destruct (show_pre_login_menu_step fuel s s' r Hrun)
    as ((_ & _ & _ & _ & Hauth) & Hdone & _).
  destruct (Hdone Hr) as [u Hu]. exists u.
  pose proof Hu as [Hcu Hne]%logged_in_Some. split_and!; [done..|].
  intros Hnone. apply Hauth; [|done]. intros u'. by rewrite Hnone.
Qed.

(** X21. [run] never returns normally: on a finite input it ends, the same
    way on any fuel above the number of lines, and it ends with [exit()] or
    with an exception (input running out, a key or decoding error from a
    file). *)
Theorem run_never_returns (fuel : nat) (s : Menu.session) :
  length (stdin (Menu.console s)) < fuel →
  ∃ r s',
    (∀ fuel', fuel ≤ fuel' →
       Menu.run upper uuid4 now fuel' s = Some (r, s')) ∧
    (r = Menu.SystemExit ∨ ∃ e, r = Menu.Raised e).
Proof.
  intros Hlen. destruct (run_ends upper uuid4 now fuel s Hlen) as [[r s'] Hrun].
  exists r, s'. split; [intros fuel' Hle; by eapply run_fuel|].
  destruct (run_step upper uuid4 now fuel s s' r Hrun) as [_ Hnot].
  destruct r as [[]|e|]; [done|by eauto|by left].
Qed.

(** X22. Whatever is typed, [run] only appends: the users file it leaves is
    the one it found followed by sign-up records (name and password
    non-empty), the todos file is the one it found followed by new records,
    and the output is the former output followed by more. *)
Theorem run_appends_only (fuel : nat) (s s' : Menu.session)
    (r : Menu.outcome unit) :
  Menu.run upper uuid4 now fuel s = Some (r, s') →
  (∃ new_users,
     Menu.users_file s' = Menu.users_file s ++ new_users ∧
     Forall signup_record new_users) ∧
  todos_file (Menu.console s) `prefix_of` todos_file (Menu.console s') ∧
  stdout (Menu.console s) `prefix_of` stdout (Menu.console s') ∧
  stdin (Menu.console s') `suffix_of` stdin (Menu.console s).
Proof.
  intros Hrun.
  destruct (run_step upper uuid4 now fuel s s' r Hrun)
    as [(Hu & (added & Ht & _) & Ho & Hi & _) _].
  split_and!; [done| |done..]. by exists added.
Qed.

(** X23. In a run started with nobody logged in, every record added to the
    todos file is the encoding of a PENDING item without due date whose
    owner is a non-empty name that the users file, as the run leaves it,
    accepts with some password: nothing is written for anyone who did not
    log in. *)
Theorem run_writes_for_accepted_users (fuel : nat) (s s' : Menu.session)
    (r : Menu.outcome unit) :
  Menu.run upper uuid4 now fuel s = Some (r, s') →
  Menu.current_user s = None →
  ∃ added,
    todos_file (Menu.console s') = todos_file (Menu.console s) ++ added ∧
    Forall (todo_of_user (Menu.users_file s')) added.
Proof.
  intros Hrun Hnone.
  destruct (run_step upper uuid4 now fuel s s' r Hrun)
    as [(_ & (added & Ht & Hadded) & _) _].
  exists added. split; [done|]. apply Hadded. intros u. by rewrite Hnone.
Qed.

End Loops.

Lemma show_pre_login_menu_gate_witness :
  is_Some (Menu.show_pre_login_menu 4
             (Menu.App_init None None ["2"; "alice"; "s3cret"])).
Proof.
  destruct (show_pre_login_menu_gate 4
              (Menu.App_init None None ["2"; "alice"; "s3cret"]))
    as (r & s' & Hrun & _); [simpl; lia|].
  rewrite (Hrun 4) by lia. by eauto.
Defined.

Lemma run_never_returns_witness :
  is_Some (Menu.run upper_ascii (λ n, pretty n) (λ n, pretty n) 4
             (Menu.App_init None None ["1"; "alice"; "s3cret"])).
Proof.
  destruct (run_never_returns upper_ascii (λ n, pretty n) (λ n, pretty n) 4
              (Menu.App_init None None ["1"; "alice"; "s3cret"]))
    as (r & s' & Hrun & _); [simpl; lia|].
  rewrite (Hrun 4) by lia. by eauto.
Defined.

Lemma run_appends_only_witness :
  ∃ r s',
    Menu.run upper_ascii (λ n, pretty n) (λ n, pretty n) 12
      (Menu.App_init None None
         ["2"; "alice"; "s3cret"; "1"; "alice"; "s3cret"; "1"; "Buy milk";
          ""; "low"; "4"])
    = Some (r, s') ∧
    [] `prefix_of` todos_file (Menu.console s').
Proof.
  eexists _, _. split; [vm_compute; reflexivity|].
  eapply (run_appends_only upper_ascii (λ n, pretty n) (λ n, pretty n) 12
            (Menu.App_init None None
               ["2"; "alice"; "s3cret"; "1"; "alice"; "s3cret"; "1";
                "Buy milk"; ""; "low"; "4"])).
  vm_compute. reflexivity.
Defined.

Lemma run_writes_for_accepted_users_witness :
  ∃ r s',
    Menu.run upper_ascii (λ n, pretty n) (λ n, pretty n) 12
      (Menu.App_init None None
         ["2"; "alice"; "s3cret"; "1"; "alice"; "s3cret"; "1"; "Buy milk";
          ""; "low"; "4"])
    = Some (r, s') ∧
    ∃ added,
      todos_file (Menu.console s') = [] ++ added ∧
      Forall (todo_of_user (Menu.users_file s')) added.
Proof.
  eexists _, _. split; [vm_compute; reflexivity|].
  eapply (run_writes_for_accepted_users upper_ascii (λ n, pretty n)
            (λ n, pretty n) 12
            (Menu.App_init None None
               ["2"; "alice"; "s3cret"; "1"; "alice"; "s3cret"; "1";
                "Buy milk"; ""; "low"; "4"])).
  - vm_compute. reflexivity.
  - reflexivity.
Defined.
